(** * MedShare unified API: normalisers, model selection and request handlers

    A shallow embedding of [app.py].  Python strings are sequences of Unicode
    code points, JSON documents are Python values, dictionaries are finite
    maps, and the calls that leave the process (image decoding, the
    generative model, [json.loads]) are fields of an environment record, so
    every statement below holds whatever those libraries answer. *)

From Stdlib Require Import NArith ZArith String Ascii SpecFloat Lia.
From stdpp Require Import base option list gmap.

#[local] Set Warnings "-register-all".

(** ** Python strings *)

Abbreviation char := N.
Abbreviation str := (list N).
Abbreviation bytes := (list Byte.byte).

Definition chr (a : ascii) : char := N_of_ascii a.
Definition lit (s : string) : str := chr <$> list_ascii_of_string s.
Arguments chr a%_char.
Arguments lit s%_string.

(** The double quote, which a literal cannot hold, and a quoted word. *)
Definition DQ : char := 34%N.
Definition quoted (s : str) : str := DQ :: s ++ [DQ].

Module Py.

Definition is_ascii (c : char) : bool := (c <? 128)%N.
Definition is_upper (c : char) : bool := (65 <=? c)%N && (c <=? 90)%N.
Definition is_lower (c : char) : bool := (97 <=? c)%N && (c <=? 122)%N.
Definition is_digit (c : char) : bool := (48 <=? c)%N && (c <=? 57)%N.
Definition is_letter (c : char) : bool := is_upper c || is_lower c.

(** [str.isspace] for one code point (CPython's [_PyUnicode_IsWhitespace]). *)
Definition isspace (c : char) : bool :=
  ((9 <=? c) && (c <=? 13) || (28 <=? c) && (c <=? 32)
   || (c =? 133) || (c =? 160) || (c =? 5760)
   || (8192 <=? c) && (c <=? 8202)
   || (c =? 8232) || (c =? 8233) || (c =? 8239) || (c =? 8287)
   || (c =? 12288))%N.

Fixpoint lstrip (s : str) : str :=
  match s with
  | c :: s' => if isspace c then lstrip s' else s
  | [] => []
  end.
Definition rstrip (s : str) : str := reverse (lstrip (reverse s)).
Definition strip (s : str) : str := rstrip (lstrip s).

Fixpoint startswith (p s : str) : bool :=
  match p, s with
  | [], _ => true
  | a :: p', b :: s' => (a =? b)%N && startswith p' s'
  | _ :: _, [] => false
  end.

(** [needle in hay] on strings. *)
Fixpoint contains (needle hay : str) : bool :=
  if startswith needle hay then true
  else match hay with
       | [] => false
       | _ :: hay' => contains needle hay'
       end.

(** [s.replace(old, new)]: the occurrences of [old] are found from the left
    and do not overlap; [skip] counts the characters of an occurrence still
    to be passed over. *)
Fixpoint replace_from (old new : str) (skip : nat) (s : str) : str :=
  match s with
  | [] => []
  | c :: s' =>
      match skip with
      | S k => replace_from old new k s'
      | O => if startswith old s
             then new ++ replace_from old new (pred (length old)) s'
             else c :: replace_from old new 0 s'
      end
  end.
Definition replace (old new s : str) : str :=
  match old with
  | [] => new ++ (s ≫= λ c, c :: new)
  | _ :: _ => replace_from old new 0 s
  end.

(** Case conversion restricted to ASCII, where it works letter by letter. *)
Definition ascii_lower (c : char) : char := if is_upper c then (c + 32)%N else c.
Definition ascii_upper (c : char) : char := if is_lower c then (c - 32)%N else c.
Fixpoint ascii_title_from (prev_cased : bool) (s : str) : str :=
  match s with
  | [] => []
  | c :: s' =>
      (if prev_cased then ascii_lower c else ascii_upper c)
        :: ascii_title_from (is_letter c) s'
  end.
Definition ascii_title (s : str) : str := ascii_title_from false s.

(** [str.lower], [str.upper] and [str.title] follow the Unicode character
    database (full case mappings, context rules), which is not part of the
    program: they are an interface. *)
Class CaseOps := {
  lower : str → str;
  upper : str → str;
  title : str → str
}.

(** What every implementation does on ASCII text. *)
Definition ascii_faithful (C : CaseOps) : Prop :=
  ∀ s, forallb is_ascii s = true →
    lower s = ascii_lower <$> s ∧ upper s = ascii_upper <$> s
    ∧ title s = ascii_title s.

(** An excerpt of the Unicode tables: ASCII, and the full upper-case
    mappings of SpecialCasing.txt for U+00DF and the ligatures
    U+FB00..U+FB02.  Code points outside the excerpt are left alone. *)
Definition excerpt_upper (c : char) : str :=
  if (c =? 223)%N then lit "SS"
  else if (c =? 64256)%N then lit "FF"
  else if (c =? 64257)%N then lit "FI"
  else if (c =? 64258)%N then lit "FL"
  else [ascii_upper c].
#[export] Instance excerpt : CaseOps := {|
  lower s := ascii_lower <$> s;
  upper s := s ≫= excerpt_upper;
  title s := ascii_title s
|}.

(** *** Character classes of [re] *)

Inductive cls_item :=
| One (c : char)           (* a literal character *)
| Range (lo hi : char)     (* lo-hi *)
| Space.                   (* \s *)

Record charclass := { negated : bool; items : list cls_item }.

Definition item_matches (c : char) (i : cls_item) : bool :=
  match i with
  | One d => (c =? d)%N
  | Range lo hi => (lo <=? c)%N && (c <=? hi)%N
  | Space => isspace c
  end.
Definition class_matches (k : charclass) (c : char) : bool :=
  xorb (negated k) (existsb (item_matches c) (items k)).

(** [re.sub(k, repl, text)] for a pattern that is the single class [k]. *)
Definition sub_class (k : charclass) (repl text : str) : str :=
  text ≫= λ c, if class_matches k c then repl else [c].

End Py.

(** ** Python values and exceptions *)

(** What [json.loads] can return, which is also what [jsonify] accepts. *)
Inductive value :=
| VNone
| VBool (b : bool)
| VInt (z : Z)
| VFloat (f : spec_float)
| VStr (s : str)
| VList (l : list value)
| VDict (d : gmap str value).

Inductive exn :=
| TypeError (culprit : value)
| AttributeError (culprit : value) (attr : str)
| KeyError (key : str)
| LibraryError (msg : str).

Inductive outcome (A : Type) :=
| Ok (a : A)
| Raise (e : exn).
Arguments Ok {A} a.
Arguments Raise {A} e.

#[export] Instance outcome_ret : MRet outcome := λ A a, Ok a.
#[export] Instance outcome_bind : MBind outcome := λ A B f m,
  match m with
  | Ok a => f a
  | Raise e => Raise e
  end.

(** Truth value of an object: [if v], [not v]. *)
Definition truthy (v : value) : bool :=
  match v with
  | VNone => false
  | VBool b => b
  | VInt z => negb (z =? 0)%Z
  | VFloat f => match f with S754_zero _ => false | _ => true end
  | VStr s => negb (bool_decide (s = []))
  | VList l => match l with [] => false | _ => true end
  | VDict d => negb (bool_decide (d = ∅))
  end.

(** [v == s] for a string literal [s]: only a string can be equal to it. *)
Definition eq_str (v : value) (s : str) : bool :=
  match v with
  | VStr t => bool_decide (t = s)
  | _ => false
  end.

(** [len(v)] *)
Definition len (v : value) : outcome nat :=
  match v with
  | VStr s => Ok (length s)
  | VList l => Ok (length l)
  | VDict d => Ok (size d)
  | _ => Raise (TypeError v)
  end.

(** [d.get(key, default)], an attribute that only dictionaries have. *)
Definition get (d : value) (key : str) (default : value) : outcome value :=
  match d with
  | VDict m => Ok (match m !! key with Some v => v | None => default end)
  | _ => Raise (AttributeError d (lit "get"))
  end.

(** ** Helper functions of the program *)

Definition NOT_DETECTED : str := lit "Not Detected".

(** [re.sub(k, repl, text)]: the text has to be a string. *)
Definition re_sub (k : Py.charclass) (repl : str) (text : value) : outcome str :=
  match text with
  | VStr s => Ok (Py.sub_class k repl s)
  | _ => Raise (TypeError text)
  end.

(** [[®™℞©*]] *)
Definition SYMBOLS : Py.charclass :=
  {| Py.negated := false;
     Py.items := [Py.One 174%N; Py.One 8482%N; Py.One 8478%N; Py.One 169%N;
                  Py.One (chr "*")] |}.

(** [[^0-9/.-]] *)
Definition NOT_DATE : Py.charclass :=
  {| Py.negated := true;
     Py.items := [Py.Range (chr "0") (chr "9"); Py.One (chr "/"); Py.One (chr ".");
                  Py.One (chr "-")] |}.

(** [[^a-zA-Z\s]] *)
Definition NOT_ALPHA : Py.charclass :=
  {| Py.negated := true;
     Py.items := [Py.Range (chr "a") (chr "z"); Py.Range (chr "A") (chr "Z"); Py.Space] |}.

Definition clean_text_value (text : value) : outcome str :=
  if negb (truthy text) || eq_str text NOT_DETECTED then Ok []
  else
    text ← re_sub SYMBOLS [] text;
    Ok (Py.strip text).

Definition clean_date (text : value) : outcome str :=
  if negb (truthy text) || eq_str text NOT_DETECTED then Ok []
  else re_sub NOT_DATE [] text.

Section Case.
Context `{C : Py.CaseOps}.

(** [text.lower()] and the other string methods on an object. *)
Definition method (name : string) (f : str → str) (v : value) : outcome str :=
  match v with
  | VStr s => Ok (f s)
  | _ => Raise (AttributeError v (lit name))
  end.

Definition clean_strength (text : value) : outcome str :=
  if negb (truthy text) || eq_str text NOT_DETECTED then Ok []
  else
    text ← method "lower" Py.lower text;
    let text := Py.replace (lit " ") [] text in
    let text := Py.replace (lit "o") (lit "0") text in
    let text := Py.replace (lit "l") (lit "1") text in
    Ok (Py.upper text).

(** [sym_spell.lookup(clean, Verbosity.CLOSEST, max_edit_distance=2)]: the
    terms of the suggestions, closest first. *)
Variable sym_spell_lookup : str → list str.

Definition fix_spelling (raw_name : value) : outcome value :=
  if negb (truthy raw_name) then Ok raw_name
  else
    n ← len raw_name;
    if (n <? 3)%nat then Ok raw_name
    else
      clean ← re_sub NOT_ALPHA [] raw_name;
      let clean := Py.lower (Py.strip clean) in
      let suggestions := sym_spell_lookup clean in
      match suggestions with
      | term :: _ => Ok (VStr (Py.title term))
      | [] => t ← method "title" Py.title raw_name; Ok (VStr t)
      end.
End Case.

(** *** The normalisers as the specification words them *)

Definition SPACE : char := chr " ".
Definition substitute (a b c : char) : char := if bool_decide (c = a) then b else c.
Definition is_date_char (c : char) : bool :=
  Py.is_digit c || bool_decide (c ∈ [chr "/"; chr "."; chr "-"]).

(** Empty for the empty string and the sentinel; otherwise lower-case, drop
    the spaces, put 0 for o and 1 for l, upper-case. *)
Definition clean_strength_described `{C : Py.CaseOps} (s : str) : str :=
  if bool_decide (s = [] ∨ s = NOT_DETECTED) then []
  else
    Py.upper (substitute (chr "l") (chr "1")
                <$> (substitute (chr "o") (chr "0")
                       <$> filter (λ c, c ≠ SPACE) (Py.lower s))).

(** On ASCII text the strength normaliser applies one function to every
    character that is not a space. *)
Definition strength_char (c : char) : char :=
  Py.ascii_upper (substitute (chr "l") (chr "1")
                    (substitute (chr "o") (chr "0") (Py.ascii_lower c))).

(** Empty for the empty string and the sentinel; otherwise the digits and
    the separators of the input, in their order. *)
Definition clean_date_described (s : str) : str :=
  if bool_decide (s = [] ∨ s = NOT_DETECTED) then []
  else filter (λ c, is_date_char c = true) s.

(** ** Model selection at start-up *)

Record model_info := {
  name : str;
  supported_generation_methods : list str
}.

(** [genai.list_models()] is consumed lazily: it hands over some models and
    then either stops or raises. *)
Record enumeration := {
  yielded : list model_info;
  failure : option exn
}.

(** The two globals the start-up code leaves behind: [active_model], and the
    identifier [model] was built from. *)
Record selection := {
  active_model : option str;
  model : str
}.

(** The [for] loop: the name it breaks on, if any. *)
Fixpoint first_flash (ms : list model_info) : option str :=
  match ms with
  | [] => None
  | m :: ms' =>
      if bool_decide (lit "generateContent" ∈ supported_generation_methods m)
         && Py.contains (lit "flash") (name m)
      then Some (name m)
      else first_flash ms'
  end.

(** What the loop looks for: content generation among the capabilities and
    "flash" somewhere in the name. *)
Definition preferred (m : model_info) : Prop :=
  lit "generateContent" ∈ supported_generation_methods m
  ∧ Py.contains (lit "flash") (name m) = true.

Definition for_loop (e : enumeration) : outcome (option str) :=
  match first_flash (yielded e) with
  | Some n => Ok (Some n)
  | None => match failure e with
            | Some x => Raise x
            | None => Ok None
            end
  end.

Definition select_model (e : enumeration) : selection :=
  match for_loop e with
  | Ok found =>
      let active :=
        match found with
        | Some n => if bool_decide (n = []) then lit "gemini-pro-vision" else n
        | None => lit "gemini-pro-vision"
        end in
      {| active_model := Some active; model := active |}
  | Raise _ =>
      {| active_model := None; model := lit "gemini-1.5-flash" |}
  end.

(** ** Requests, responses and the world outside *)

(** [request.files]: the uploaded parts in the order of the form, a field
    name possibly more than once. *)
Record request := { files : list (str * bytes) }.

Record http_response := { body : value; status : Z }.

Definition first_of {A} (key : str) (l : list (str * A)) : option A :=
  snd <$> List.find (λ kv, bool_decide (kv.1 = key)) l.

(** [key in request.files] and [request.files[key]] *)
Definition has_field (key : str) (l : list (str * bytes)) : bool :=
  bool_decide (is_Some (first_of key l)).
Definition getitem (l : list (str * bytes)) (key : str) : outcome bytes :=
  match first_of key l with
  | Some f => Ok f
  | None => Raise (KeyError key)
  end.

(** A dictionary display [{k1: v1, k2: v2, ...}]: later entries win. *)
Definition dict (l : list (str * value)) : gmap str value :=
  foldl (λ m kv, <[kv.1 := kv.2]> m) ∅ l.

(** Pillow, the generative model, the JSON parser and the interpreter's
    rendering of an exception ([str(e)]). *)
Record Env := {
  Image : Type;
  Reply : Type;
  Image_open : bytes → outcome Image;
  exif_transpose : Image → outcome Image;
  generate_content : str → str → Image → outcome Reply;
  reply_text : Reply → outcome str;
  json_loads : str → outcome value;
  exn_str : exn → str
}.

(** ** Handlers: results together with what was called on the way *)

Inductive helper :=
| Fix_spelling
| Clean_text_value
| Clean_date
| Clean_strength.

Inductive event :=
| EvImageOpen (data : bytes)
| EvExifTranspose
| EvGenerate (model prompt : str)
| EvJsonLoads (text : str)
| EvCall (h : helper).

Record M (A : Type) := Run { result : outcome A; log : list event }.
Arguments Run {A} result log.
Arguments result {A} m.
Arguments log {A} m.

#[export] Instance M_ret : MRet M := λ A a, Run (Ok a) [].
#[export] Instance M_bind : MBind M := λ A B f m,
  match result m with
  | Ok a => Run (result (f a)) (log m ++ log (f a))
  | Raise e => Run (Raise e) (log m)
  end.

Definition lift {A} (o : outcome A) : M A := Run o [].
Definition emit (e : event) : M () := Run (Ok ()) [e].
(** A library call, and a call of one of the program's own helpers. *)
Definition external {A} (e : event) (o : outcome A) : M A := emit e;; lift o.
Definition call {A} (h : helper) (o : outcome A) : M A := emit (EvCall h);; lift o.

(** [try: m except Exception as e: handler e] *)
Definition try_except {A} (m : M A) (handler : exn → M A) : M A :=
  match result m with
  | Ok _ => m
  | Raise e => Run (result (handler e)) (log m ++ log (handler e))
  end.

Definition NL : str := [10%N].
Definition INDENT : str := lit "        ".

Definition PRESCRIPTION_PROMPT : str :=
  NL ++ INDENT ++ lit "You are an expert pharmacist AI. Analyze this handwritten prescription image."
  ++ NL ++ INDENT ++ lit "Identify all medicines and their strengths."
  ++ NL ++ INDENT ++ lit "Return strict JSON: { " ++ quoted (lit "medicines") ++ lit ": [ { "
  ++ quoted (lit "name") ++ lit ": " ++ quoted (lit "Name") ++ lit ", "
  ++ quoted (lit "strength") ++ lit ": " ++ quoted (lit "500mg") ++ lit " } ] }"
  ++ NL ++ INDENT.

Definition BOX_PROMPT : str :=
  NL ++ INDENT ++ lit "Analyze medicine box. Find: medicineName, strength, expiryDate, manufacturingDate."
  ++ NL ++ INDENT ++ lit "Return JSON keys exactly as listed."
  ++ NL ++ INDENT.

Definition jsonify (l : list (str * value)) : value := VDict (dict l).

(** [response.text.replace("```json", "").replace("```", "").strip()] *)
Definition strip_fences (text : str) : str :=
  Py.strip (Py.replace (lit "```") [] (Py.replace (lit "```json") [] text)).

Section Handlers.
Variable E : Env.
(** The global [model], by the identifier it was built from. *)
Variable model : str.

Definition error_response (e : exn) : M http_response :=
  mret {| body := jsonify [(lit "error", VStr (exn_str E e))]; status := 500 |}.

Definition no_image : http_response :=
  {| body := jsonify [(lit "error", VStr (lit "No image"))]; status := 400 |}.

Definition predict_prescription (req : request) : M http_response :=
  try_except
    (if negb (has_field (lit "image") (files req)) then mret no_image
     else
       file ← lift (getitem (files req) (lit "image"));
       image ← external (EvImageOpen file) (Image_open E file);
       image ← external EvExifTranspose (exif_transpose E image);
       let prompt := PRESCRIPTION_PROMPT in
       response ← external (EvGenerate model prompt) (generate_content E model prompt image);
       text ← lift (reply_text E response);
       let clean_text := strip_fences text in
       medicines_raw ←
         try_except
           (data ← external (EvJsonLoads clean_text) (json_loads E clean_text);
            lift (get data (lit "medicines") (VList [])))
           (λ _, mret (VList []));
       mret {| body := jsonify [(lit "status", VStr (lit "success"));
                                (lit "medicines", medicines_raw)];
               status := 200 |})
    error_response.

(** One entry of [final_response]: [f(data.get(key, ""))]. *)
Definition entry (data : value) (h : helper) (f : value → outcome str) (key : str)
  : M value :=
  raw ← lift (get data key (VStr []));
  v ← call h (f raw);
  mret (VStr v).

(** [if v and v != ""] *)
Definition kept (v : value) : bool := truthy v && negb (eq_str v []).

Definition predict_box (req : request) : M http_response :=
  try_except
    (if negb (has_field (lit "image") (files req)) then mret no_image
     else
       file ← lift (getitem (files req) (lit "image"));
       image ← external (EvImageOpen file) (Image_open E file);
       image ← external EvExifTranspose (exif_transpose E image);
       let prompt := BOX_PROMPT in
       response ← external (EvGenerate model prompt) (generate_content E model prompt image);
       text ← lift (reply_text E response);
       let clean_text := strip_fences text in
       data ← external (EvJsonLoads clean_text) (json_loads E clean_text);
       medicineName ← entry data Clean_text_value clean_text_value (lit "medicineName");
       strength ← entry data Clean_text_value clean_text_value (lit "strength");
       expiryDate ← entry data Clean_date clean_date (lit "expiryDate");
       manufacturingDate ← entry data Clean_date clean_date (lit "manufacturingDate");
       Medicine_Name ← entry data Clean_text_value clean_text_value (lit "medicineName");
       Strength ← entry data Clean_text_value clean_text_value (lit "strength");
       EXP_Date ← entry data Clean_date clean_date (lit "expiryDate");
       MFG_Date ← entry data Clean_date clean_date (lit "manufacturingDate");
       let final_response :=
         dict [(lit "medicineName", medicineName);
               (lit "strength", strength);
               (lit "expiryDate", expiryDate);
               (lit "manufacturingDate", manufacturingDate);
               (lit "Medicine_Name", Medicine_Name);
               (lit "Strength", Strength);
               (lit "EXP_Date", EXP_Date);
               (lit "MFG_Date", MFG_Date)] in
       let filtered_response :=
         filter (λ kv, kept kv.2 = true) final_response in
       mret {| body := jsonify [(lit "status", VStr (lit "success"));
                                (lit "fields", VDict filtered_response);
                                (lit "detections", VDict filtered_response)];
               status := 200 |})
    error_response.
End Handlers.

(** The map the box handler returns for four normalised values: every value
    under both of its keys, the empty ones left out. *)
Definition box_fields (n s x m : str) : gmap str value :=
  filter (λ kv, kept kv.2 = true)
    (dict [(lit "medicineName", VStr n);
           (lit "strength", VStr s);
           (lit "expiryDate", VStr x);
           (lit "manufacturingDate", VStr m);
           (lit "Medicine_Name", VStr n);
           (lit "Strength", VStr s);
           (lit "EXP_Date", VStr x);
           (lit "MFG_Date", VStr m)]).

(** [f(data.get(key, ""))] as a value or an exception. *)
Definition normalised (f : value → outcome str) (data : value) (key : str) : outcome str :=
  raw ← get data key (VStr []); f raw.

(** What the inner [try] of the prescription handler leaves in
    [medicines_raw] when the model answered [text]. *)
Definition medicines_of (E : Env) (text : str) : value :=
  match json_loads E (strip_fences text)
        ≫= λ data, get data (lit "medicines") (VList []) with
  | Ok medicines => medicines
  | Raise _ => VList []
  end.

(** The handler [m] called the helper [h]. *)
Definition calls {A} (h : helper) (m : M A) : Prop := EvCall h ∈ log m.

(** ** A concrete world, to run the handlers in *)

(** Images that always decode, a model that always answers [reply], and a
    parser that knows the documents of [table] and rejects everything else. *)
Definition parse_table (table : list (str * value)) (text : str) : outcome value :=
  match first_of text table with
  | Some v => Ok v
  | None => Raise (LibraryError (lit "Expecting value"))
  end.

Definition scenario (reply : str) (table : list (str * value)) : Env := {|
  Image := bytes;
  Reply := str;
  Image_open data := Ok data;
  exif_transpose image := Ok image;
  generate_content _ _ _ := Ok reply;
  reply_text r := Ok r;
  json_loads := parse_table table;
  exn_str _ := lit "error"
|}.

(** A box whose name is misspelt and starred, whose strength has a letter for
    a digit, and whose manufacturing date the model could not read. *)
Definition demo_document : str :=
  lit "{" ++ quoted (lit "medicineName") ++ lit ": " ++ quoted (lit "paracetamoll*")
  ++ lit ", " ++ quoted (lit "strength") ++ lit ": " ++ quoted (lit "5O0mg")
  ++ lit ", " ++ quoted (lit "expiryDate") ++ lit ": " ++ quoted (lit "Exp: 12/2025!!")
  ++ lit ", " ++ quoted (lit "manufacturingDate") ++ lit ": " ++ quoted (lit "Not Detected")
  ++ lit "}".

Definition demo_reply : str :=
  lit "```json" ++ NL ++ demo_document ++ NL ++ lit "```".

Definition demo_data : value :=
  VDict (dict [(lit "medicineName", VStr (lit "paracetamoll*"));
               (lit "strength", VStr (lit "5O0mg"));
               (lit "expiryDate", VStr (lit "Exp: 12/2025!!"));
               (lit "manufacturingDate", VStr (lit "Not Detected"))]).

Definition demo_world : Env := scenario demo_reply [(demo_document, demo_data)].


Definition demo_model : str := lit "models/gemini-1.5-flash".

Definition demo_request : request :=
  {| files := [(lit "image", [Byte.xff; Byte.xd8; Byte.xff; Byte.xe0])] |}.

Definition empty_request : request :=
  {| files := [(lit "photo", [Byte.xff; Byte.xd8; Byte.xff; Byte.xe0])] |}.

Definition demo_fields : gmap str value :=
  dict [(lit "medicineName", VStr (lit "paracetamoll"));
        (lit "strength", VStr (lit "5O0mg"));
        (lit "expiryDate", VStr (lit "12/2025"));
        (lit "Medicine_Name", VStr (lit "paracetamoll"));
        (lit "Strength", VStr (lit "5O0mg"));
        (lit "EXP_Date", VStr (lit "12/2025"))].

Definition demo_box_response : http_response :=
  {| body := jsonify [(lit "status", VStr (lit "success"));
                      (lit "fields", VDict demo_fields);
                      (lit "detections", VDict demo_fields)];
     status := 200 |}.

(** A fuzzy index that holds the word "paracetamol". *)
Definition demo_lookup (clean : str) : list str :=
  if bool_decide (clean = lit "paracetamoll") then [lit "paracetamol"] else [].

(** ** Vocabulary for the further properties *)

(** The marks [clean_text_value] deletes: registered, trade mark,
    prescription, copyright, asterisk. *)
Definition is_symbol (c : char) : bool :=
  bool_decide (c ∈ [174%N; 8482%N; 8478%N; 169%N; chr "*"]).

(** No white space at either end. *)
Definition trimmed (s : str) : Prop :=
  ∀ c, head s = Some c ∨ last s = Some c → Py.isspace c = false.

(** The keys of [final_response], each with the value it is bound to. *)
Definition box_entries (n s x m : str) : list (str * str) :=
  [(lit "medicineName", n); (lit "strength", s);
   (lit "expiryDate", x); (lit "manufacturingDate", m);
   (lit "Medicine_Name", n); (lit "Strength", s);
   (lit "EXP_Date", x); (lit "MFG_Date", m)].

Definition is_model_call (e : event) : bool :=
  match e with
  | EvGenerate _ _ => true
  | _ => false
  end.

(** How often a handler called the generative model. *)
Definition model_calls {A} (m : M A) : nat :=
  length (filter (λ e, is_model_call e = true) (log m)).

(** The body of a 500 answer. *)
Definition error_body (E : Env) (x : exn) : value :=
  jsonify [(lit "error", VStr (exn_str E x))].

(** A string, as opposed to the other things a JSON document can hold. *)
Definition is_str (v : value) : bool :=
  match v with
  | VStr _ => true
  | _ => false
  end.

(** Worlds in which one of the libraries fails. *)
Definition undecodable_world : Env := {|
  Image := bytes;
  Reply := str;
  Image_open _ := Raise (LibraryError (lit "cannot identify image file"));
  exif_transpose image := Ok image;
  generate_content _ _ _ := Ok demo_reply;
  reply_text r := Ok r;
  json_loads := parse_table [(demo_document, demo_data)];
  exn_str _ := lit "error"
|}.

Definition unreachable_world : Env := {|
  Image := bytes;
  Reply := str;
  Image_open data := Ok data;
  exif_transpose image := Ok image;
  generate_content _ _ _ := Raise (LibraryError (lit "quota exceeded"));
  reply_text r := Ok r;
  json_loads := parse_table [(demo_document, demo_data)];
  exn_str _ := lit "error"
|}.

(** A model that answers with a JSON array, and one that gives the strength
    as a number. *)
Definition array_world : Env := scenario (lit "[1, 2]") [(lit "[1, 2]", VList [VInt 1; VInt 2])].

Definition numeric_document : str :=
  lit "{" ++ quoted (lit "strength") ++ lit ": 500}".
Definition numeric_world : Env :=
  scenario numeric_document [(numeric_document, VDict (dict [(lit "strength", VInt 500)]))].

(** * Properties *)

Arguments lit : simpl never.

(** Character literals as the numbers they stand for. *)
Ltac norm_chars :=
  repeat match goal with
         | |- context [chr ?a] =>
             let v := eval vm_compute in (chr a) in change (chr a) with v
         end.

(** ** String primitives *)

Section PyFacts.
Import Py.

Lemma startswith_single a s :
  startswith [a] s = match s with c :: _ => bool_decide (c = a) | [] => false end.
Proof.
  destruct s as [|c s]; simpl; [done|].
  rewrite andb_true_r. case_bool_decide; subst.
  - apply N.eqb_refl.
  - apply N.eqb_neq. congruence.
Qed.

Lemma startswith_app (p s : str) : startswith p s = true ↔ ∃ rest, s = p ++ rest.
Proof.
  revert s. induction p as [|a p IH]; intros s; cbn.
  - split; [eauto|done].
  - destruct s as [|b s]; [split; [done|intros [? [=]]]|].
    rewrite andb_true_iff, N.eqb_eq, IH. split.
    + intros [-> [rest ->]]. eauto.
    + intros [rest [= -> ->]]. eauto.
Qed.


(** [needle in hay] holds exactly when [needle] occurs inside [hay]. *)
Lemma contains_infix (needle hay : str) :
  contains needle hay = true ↔ ∃ before after, hay = before ++ needle ++ after.
Proof.
  induction hay as [|c hay IH]; cbn [contains].
  - destruct (startswith needle []) eqn:Hp.
    + apply startswith_app in Hp as [rest Hp]. split; [|done]. intros _. by exists [], rest.
    + split; [done|]. intros ([|] & after & Heq); [|done].
      assert (startswith needle [] = true) by (apply startswith_app; eauto). congruence.
  - destruct (startswith needle (c :: hay)) eqn:Hp.
    + apply startswith_app in Hp as [rest Hp]. split; [|done]. intros _. by exists [], rest.
    + rewrite IH. split.
      * intros (before & after & ->). by exists (c :: before), after.
      * intros ([|d before] & after & Heq).
        -- assert (startswith needle (c :: hay) = true) by (apply startswith_app; eauto).
           congruence.
        -- injection Heq as -> ->. eauto.
Qed.

(** Replacing a one-character pattern works character by character. *)
Lemma replace_single a new s :
  replace [a] new s = s ≫= λ c, if bool_decide (c = a) then new else [c].
Proof.
  unfold replace. induction s as [|c s IH]; [done|].
  cbn [replace_from]. rewrite startswith_single. cbn [length pred].
  rewrite IH, bind_cons. by case_bool_decide.
Qed.

Lemma replace_single_delete a s :
  replace [a] [] s = filter (λ c, c ≠ a) s.
Proof.
  rewrite replace_single. induction s as [|c s IH]; [done|].
  rewrite bind_cons, IH. case_bool_decide; subst.
  - by rewrite filter_cons_False by tauto.
  - by rewrite filter_cons_True.
Qed.

Lemma replace_single_char a b s :
  replace [a] [b] s = substitute a b <$> s.
Proof.
  rewrite replace_single. induction s as [|c s IH]; [done|].
  rewrite bind_cons, fmap_cons, IH. unfold substitute at 2. by case_bool_decide.
Qed.

(** Deleting the members of a class keeps exactly the other characters. *)
Lemma sub_class_delete k s :
  sub_class k [] s = filter (λ c, class_matches k c = false) s.
Proof.
  unfold sub_class. induction s as [|c s IH]; [done|].
  rewrite bind_cons, IH. destruct (class_matches k c) eqn:Hc.
  - by rewrite filter_cons_False by congruence.
  - by rewrite filter_cons_True.
Qed.

Lemma replace_examples :
  replace (lit "aa") (lit "b") (lit "aaaa") = lit "bb"
  ∧ replace (lit "```") [] (lit "`````x") = lit "``x"
  ∧ replace [] (lit "-") (lit "abc") = lit "-a-b-c-".
Proof. by split_and!. Qed.

(** *** Removing a pattern of three equal characters leaves none behind *)





Lemma lstrip_suffix s : ∃ pre, s = pre ++ lstrip s.
Proof.
  induction s as [|c s [pre IH]]; [by exists []|]. cbn.
  destruct (isspace c); [|by exists []]. exists (c :: pre). by rewrite IH at 1.
Qed.

Lemma strip_inside s : ∃ pre post, s = pre ++ strip s ++ post.
Proof.
  unfold strip, rstrip. destruct (lstrip_suffix s) as [pre Hpre].
  destruct (lstrip_suffix (reverse (lstrip s))) as [post Hpost].
  exists pre, (reverse post). rewrite <- reverse_app, <- Hpost, reverse_involutive. done.
Qed.

End PyFacts.

(** ** The normalisers *)

Lemma sentinel_test (s : str) :
  negb (truthy (VStr s)) || eq_str (VStr s) NOT_DETECTED
  = bool_decide (s = [] ∨ s = NOT_DETECTED).
Proof.
  simpl. repeat case_bool_decide; simpl; try done; tauto.
Qed.

Lemma date_class_keeps c :
  Py.class_matches NOT_DATE c = false ↔ is_date_char c = true.
Proof.
  unfold Py.class_matches, is_date_char, Py.is_digit, NOT_DATE. norm_chars.
  cbn [Py.negated Py.items]. rewrite xorb_true_l. cbn [existsb Py.item_matches].
  rewrite !orb_false_r, negb_false_iff, !orb_true_iff, bool_decide_eq_true.
  rewrite !N.eqb_eq, !elem_of_cons, elem_of_nil. tauto.
Qed.

Lemma clean_date_unfold (s : str) :
  clean_date (VStr s) = Ok (clean_date_described s).
Proof.
  unfold clean_date, clean_date_described. rewrite sentinel_test.
  case_bool_decide; [done|]. cbn. f_equal.
  rewrite sub_class_delete. apply list_filter_iff. intros c. apply date_class_keeps.
Qed.

Lemma clean_strength_unfold `{C : Py.CaseOps} (s : str) :
  clean_strength (VStr s) = Ok (clean_strength_described s).
Proof.
  unfold clean_strength, clean_strength_described. rewrite sentinel_test.
  case_bool_decide; [done|]. cbn. f_equal. f_equal.
  change (lit " ") with [SPACE]. change (lit "o") with [chr "o"].
  change (lit "0") with [chr "0"]. change (lit "l") with [chr "l"].
  change (lit "1") with [chr "1"].
  by rewrite replace_single_delete, !replace_single_char.
Qed.

(** The excerpt is a legitimate implementation as far as ASCII goes. *)
Lemma excerpt_faithful : Py.ascii_faithful Py.excerpt.
Proof.
  intros s Hs. split_and!; try done. cbn.
  induction s as [|c s IH]; [done|].
  cbn in Hs. apply andb_true_iff in Hs as [Hc Hs].
  rewrite bind_cons, fmap_cons, IH by done.
  unfold Py.is_ascii in Hc. apply N.ltb_lt in Hc.
  unfold Py.excerpt_upper.
  rewrite !(proj2 (N.eqb_neq _ _)) by lia. done.
Qed.

(** *** Strength on ASCII text *)

Lemma ascii_range c :
  Py.is_ascii c = true → c ∈ (N.of_nat <$> seq 0 128).
Proof.
  unfold Py.is_ascii. intros H%N.ltb_lt.
  apply list_elem_of_fmap. exists (N.to_nat c). split; [lia|].
  apply elem_of_seq. lia.
Qed.

Lemma strength_char_facts c :
  Py.is_ascii c = true → c ≠ SPACE →
  Py.is_ascii (strength_char c) = true
  ∧ Py.is_ascii (substitute (chr "l") (chr "1")
                   (substitute (chr "o") (chr "0") (Py.ascii_lower c))) = true
  ∧ Py.ascii_lower c ≠ SPACE
  ∧ strength_char c ≠ SPACE
  ∧ strength_char (strength_char c) = strength_char c.
Proof.
  intros Hc%ascii_range Hsp.
  assert (Hall : Forall (λ c, c ≠ SPACE →
      Py.is_ascii (strength_char c) = true
      ∧ Py.is_ascii (substitute (chr "l") (chr "1")
                       (substitute (chr "o") (chr "0") (Py.ascii_lower c))) = true
      ∧ Py.ascii_lower c ≠ SPACE
      ∧ strength_char c ≠ SPACE
      ∧ strength_char (strength_char c) = strength_char c) (N.of_nat <$> seq 0 128)).
  { refine (bool_decide_unpack _ _). vm_compute. exact I. }
  rewrite Forall_forall in Hall. by apply Hall.
Qed.

Section StrengthAscii.
Context (C : Py.CaseOps) (HC : Py.ascii_faithful C).

Lemma inner_ascii (s : str) :
  forallb Py.is_ascii s = true →
  substitute (chr "l") (chr "1")
    <$> (substitute (chr "o") (chr "0")
           <$> filter (λ c, c ≠ SPACE) (Py.ascii_lower <$> s))
  = (λ c, substitute (chr "l") (chr "1")
            (substitute (chr "o") (chr "0") (Py.ascii_lower c)))
      <$> filter (λ c, c ≠ SPACE) s.
Proof.
  induction s as [|c s IH]; [done|].
  cbn [forallb]. intros [Hc Hs]%andb_true_iff.
  rewrite fmap_cons. destruct (decide (c = SPACE)) as [->|Hne].
  - rewrite filter_cons_False by (vm_compute; tauto).
    rewrite (filter_cons_False _ SPACE) by tauto. by apply IH.
  - destruct (strength_char_facts c Hc Hne) as (_ & _ & Hl & _).
    rewrite !filter_cons_True by done. rewrite !fmap_cons. f_equal. by apply IH.
Qed.

Lemma described_ascii (s : str) :
  forallb Py.is_ascii s = true →
  clean_strength_described s =
    if bool_decide (s = [] ∨ s = NOT_DETECTED) then []
    else strength_char <$> filter (λ c, c ≠ SPACE) s.
Proof.
  intros Hs. unfold clean_strength_described. case_bool_decide; [done|].
  destruct (HC s Hs) as (-> & _ & _). rewrite inner_ascii by done.
  match goal with |- Py.upper ?t = _ => destruct (HC t) as (_ & -> & _) end.
  - apply forallb_forall. intros d (c & -> & [Hne Hin]%list_elem_of_filter)%list_elem_of_In%list_elem_of_fmap.
    rewrite forallb_forall in Hs.
    apply strength_char_facts; [apply Hs; by apply list_elem_of_In|done].
  - by rewrite <- list_fmap_compose.
Qed.

(** The result of a first pass is left alone by a second one. *)
Lemma strength_pass_stable (s : str) :
  forallb Py.is_ascii s = true →
  let t := strength_char <$> filter (λ c, c ≠ SPACE) s in
  forallb Py.is_ascii t = true ∧ t ≠ NOT_DETECTED
  ∧ strength_char <$> filter (λ c, c ≠ SPACE) t = t.
Proof.
  intros Hs t. rewrite forallb_forall in Hs.
  assert (Hfacts : ∀ d, d ∈ t →
    Py.is_ascii d = true ∧ d ≠ SPACE ∧ strength_char d = d).
  { intros d (c & -> & [Hne Hin]%list_elem_of_filter)%list_elem_of_fmap.
    destruct (strength_char_facts c) as (? & _ & _ & ? & ?); [|done..].
    apply Hs. by apply list_elem_of_In. }
  split_and!.
  - apply forallb_forall. intros d Hd%list_elem_of_In. by apply Hfacts.
  - intros Heq. destruct (Hfacts SPACE) as (_ & ? & _); [|done].
    rewrite Heq. apply list_elem_of_In. vm_compute. tauto.
  - clearbody t. induction t as [|d t IH]; [done|].
    destruct (Hfacts d) as (_ & ? & Hd); [left|].
    rewrite filter_cons_True, fmap_cons, Hd by done. f_equal.
    apply IH. intros. apply Hfacts. by right.
Qed.
End StrengthAscii.

(** C6.  For every input string, [clean_strength] returns the empty string
    when the input is empty or is the sentinel "Not Detected"; otherwise it
    lower-cases the input, removes the spaces, puts 0 for every o and 1 for
    every l, and upper-cases the result.  With any case conversion that is
    right on ASCII, "500 MG" and "5O0mg" both become "500MG". *)
Theorem clean_strength_as_described (C : Py.CaseOps) (HC : Py.ascii_faithful C) :
  (∀ s : str, clean_strength (VStr s) = Ok (clean_strength_described s))
  ∧ clean_strength (VStr []) = Ok []
  ∧ clean_strength (VStr NOT_DETECTED) = Ok []
  ∧ clean_strength (VStr (lit "500 MG")) = Ok (lit "500MG")
  ∧ clean_strength (VStr (lit "5O0mg")) = Ok (lit "500MG").
Proof.
  split_and!; [apply clean_strength_unfold|done|done|..];
    rewrite clean_strength_unfold, described_ascii by done; reflexivity.
Qed.

Lemma clean_strength_as_described_witness :
  Py.ascii_faithful Py.excerpt
  ∧ clean_strength (C:=Py.excerpt) (VStr (lit "5O0mg")) = Ok (lit "500MG").
Proof.
  split; [exact excerpt_faithful|].
  apply (clean_strength_as_described Py.excerpt excerpt_faithful).
Defined.

(** C7, as the code has it.  On ASCII text [clean_strength] is idempotent:
    a second application returns what the first one returned. *)
Theorem clean_strength_idempotent_ascii (C : Py.CaseOps) (HC : Py.ascii_faithful C)
    (s : str) (Hs : forallb Py.is_ascii s = true) :
  (clean_strength (VStr s) ≫= λ t, clean_strength (VStr t))
  = clean_strength (VStr s).
Proof.
  rewrite clean_strength_unfold. cbn [mbind outcome_bind].
  rewrite clean_strength_unfold. f_equal.
  rewrite (described_ascii C HC s Hs). case_bool_decide as Hsent; [done|].
  destruct (strength_pass_stable s Hs) as (Ht & Hnd & Hstable).
  rewrite (described_ascii C HC _ Ht). case_bool_decide as Hsent'; [|done].
  by destruct Hsent' as [Hnil|Hnd'].
Qed.

Lemma clean_strength_idempotent_ascii_witness :
  (clean_strength (C:=Py.excerpt) (VStr (lit "5O0 mg"))
     ≫= λ t, clean_strength (C:=Py.excerpt) (VStr t))
  = clean_strength (C:=Py.excerpt) (VStr (lit "5O0 mg")).
Proof.
  apply (clean_strength_idempotent_ascii Py.excerpt excerpt_faithful (lit "5O0 mg")).
  reflexivity.
Defined.

(** C7, as the specification has it, fails outside ASCII.  The ligature
    U+FB02 is a lower-case letter whose upper case is the two letters FL; the
    first pass returns "FL" and the second turns its L into 1. *)
Lemma clean_strength_not_idempotent :
  clean_strength (C:=Py.excerpt) (VStr [64258%N]) = Ok (lit "FL")
  ∧ clean_strength (C:=Py.excerpt) (VStr (lit "FL")) = Ok (lit "F1")
  ∧ (clean_strength (C:=Py.excerpt) (VStr [64258%N])
       ≫= λ t, clean_strength (C:=Py.excerpt) (VStr t))
    ≠ clean_strength (C:=Py.excerpt) (VStr [64258%N]).
Proof. split_and!; [reflexivity..|discriminate]. Qed.

(** C8.  For every input string, [clean_date] returns the empty string when
    the input is empty or is the sentinel "Not Detected"; otherwise it returns
    the input without the characters that are neither a digit nor one of the
    separators / . - ; "Exp: 12/2025!!" becomes "12/2025". *)
Theorem clean_date_as_described :
  (∀ s : str, clean_date (VStr s) = Ok (clean_date_described s))
  ∧ clean_date (VStr []) = Ok []
  ∧ clean_date (VStr NOT_DETECTED) = Ok []
  ∧ clean_date (VStr (lit "Exp: 12/2025!!")) = Ok (lit "12/2025").
Proof. split_and!; [apply clean_date_unfold|reflexivity..]. Qed.

(** ** Model selection *)

Lemma preferred_test m :
  bool_decide (lit "generateContent" ∈ supported_generation_methods m)
  && Py.contains (lit "flash") (name m) = true ↔ preferred m.
Proof. unfold preferred. by rewrite andb_true_iff, bool_decide_eq_true. Qed.

Lemma preferred_named m : preferred m → name m ≠ [].
Proof. intros [_ H] Hnil. rewrite Hnil in H. discriminate. Qed.

Lemma first_flash_none ms :
  first_flash ms = None ↔ Forall (λ m, ¬ preferred m) ms.
Proof.
  induction ms as [|m ms IH]; cbn [first_flash]; [by split|].
  rewrite Forall_cons, <- IH, <- preferred_test.
  destruct (_ && _); split; try done; intros []; done.
Qed.

Lemma first_flash_first before m after :
  Forall (λ x, ¬ preferred x) before → preferred m →
  first_flash (before ++ m :: after) = Some (name m).
Proof.
  intros Hb Hm. induction Hb as [|x before Hx _ IH]; cbn [app first_flash].
  - by rewrite (proj2 (preferred_test m) Hm).
  - rewrite <- preferred_test in Hx. by destruct (_ && _).
Qed.

(** C3, as the code has it.  The selector takes the first model of the
    enumeration that supports content generation and has "flash" in its name.
    Without such a model it takes "gemini-pro-vision" when the enumeration
    ends normally, and "gemini-1.5-flash" (leaving [active_model] unset) when
    the enumeration raises before a model was chosen. *)
Theorem select_model_cases (e : enumeration) :
  (∀ before m after,
      yielded e = before ++ m :: after →
      Forall (λ x, ¬ preferred x) before → preferred m →
      select_model e = {| active_model := Some (name m); model := name m |})
  ∧ (Forall (λ x, ¬ preferred x) (yielded e) → failure e = None →
     select_model e = {| active_model := Some (lit "gemini-pro-vision");
                         model := lit "gemini-pro-vision" |})
  ∧ (Forall (λ x, ¬ preferred x) (yielded e) → ∀ x, failure e = Some x →
     select_model e = {| active_model := None; model := lit "gemini-1.5-flash" |})
  ∧ (∀ m, preferred m ↔
          lit "generateContent" ∈ supported_generation_methods m
          ∧ ∃ before after, name m = before ++ lit "flash" ++ after).
Proof.
  unfold select_model, for_loop. split_and!;
    [..|intros m; unfold preferred; by rewrite contains_infix].
  - intros before m after -> Hb Hm. rewrite first_flash_first by done.
    by rewrite bool_decide_eq_false_2 by by apply preferred_named.
  - intros Hnone%first_flash_none ->. by rewrite Hnone.
  - intros Hnone%first_flash_none x ->. by rewrite Hnone.
Qed.

Lemma select_model_cases_witness :
  select_model
    {| yielded := [ {| name := lit "models/gemini-pro";
                       supported_generation_methods := [lit "generateContent"] |};
                    {| name := lit "models/gemini-1.5-flash";
                       supported_generation_methods :=
                         [lit "generateContent"; lit "countTokens"] |} ];
       failure := Some (LibraryError (lit "deadline exceeded")) |}
  = {| active_model := Some (lit "models/gemini-1.5-flash");
       model := lit "models/gemini-1.5-flash" |}.
Proof.
  eapply (proj1 (select_model_cases _)
            [ {| name := lit "models/gemini-pro";
                 supported_generation_methods := [lit "generateContent"] |} ]
            {| name := lit "models/gemini-1.5-flash";
               supported_generation_methods :=
                 [lit "generateContent"; lit "countTokens"] |} []).
  - reflexivity.
  - constructor; [|constructor]. intros [_ H]. vm_compute in H. discriminate H.
  - split; [apply list_elem_of_In; vm_compute; tauto | reflexivity].
Defined.

(** C3, as the specification has it, fails: the two failure cases end with
    different identifiers. *)
Lemma fallbacks_differ :
  model (select_model {| yielded := []; failure := None |}) = lit "gemini-pro-vision"
  ∧ model (select_model {| yielded := [];
                           failure := Some (LibraryError (lit "unavailable")) |})
    = lit "gemini-1.5-flash"
  ∧ model (select_model {| yielded := []; failure := None |})
    ≠ model (select_model {| yielded := [];
                             failure := Some (LibraryError (lit "unavailable")) |}).
Proof. split_and!; [reflexivity..|discriminate]. Qed.

(** ** The handler monad *)

Lemma result_bind {A B} (m : M A) (f : A → M B) :
  result (m ≫= f) = result m ≫= λ a, result (f a).
Proof. unfold mbind at 1, M_bind. by destruct (result m). Qed.

Lemma result_lift {A} (o : outcome A) : result (lift o) = o.
Proof. done. Qed.

Lemma result_external {A} e (o : outcome A) : result (external e o) = o.
Proof. done. Qed.

Lemma result_call {A} h (o : outcome A) : result (call h o) = o.
Proof. done. Qed.

Lemma result_entry data h f key :
  result (entry data h f key) = v ← normalised f data key; Ok (VStr v).
Proof.
  unfold entry, normalised. rewrite result_bind, result_lift.
  destruct (get data key (VStr [])) as [raw|]; [|done]. cbn [mbind outcome_bind].
  rewrite result_bind, result_call. by destruct (f raw).
Qed.

Lemma outcome_bind_Ok {A B} (o : outcome A) (f : A → outcome B) b :
  o ≫= f = Ok b → ∃ a, o = Ok a ∧ f a = Ok b.
Proof. destruct o; [eauto|done]. Qed.

(** Events of a handler all satisfy [P] when those of its parts do. *)
Section Logs.
Context (P : event → Prop).

Lemma log_bind {A B} (m : M A) (f : A → M B) :
  Forall P (log m) → (∀ a, Forall P (log (f a))) → Forall P (log (m ≫= f)).
Proof.
  intros Hm Hf. unfold mbind, M_bind. destruct (result m); [|done].
  apply Forall_app. auto.
Qed.

Lemma log_try {A} (m : M A) handler :
  Forall P (log m) → (∀ e, Forall P (log (handler e))) →
  Forall P (log (try_except m handler)).
Proof.
  intros Hm Hh. unfold try_except. destruct (result m); [done|].
  apply Forall_app. auto.
Qed.

Lemma log_ret {A} (a : A) : Forall P (log (mret a)).
Proof. constructor. Qed.

Lemma log_lift {A} (o : outcome A) : Forall P (log (lift o)).
Proof. constructor. Qed.

Lemma log_external {A} e (o : outcome A) : P e → Forall P (log (external e o)).
Proof. intros. by repeat constructor. Qed.

Lemma log_call {A} h (o : outcome A) : P (EvCall h) → Forall P (log (call h o)).
Proof. intros. by repeat constructor. Qed.

Lemma log_entry data h f key : P (EvCall h) → Forall P (log (entry data h f key)).
Proof.
  intros. unfold entry.
  repeat first [apply log_bind; [|intros ?] | apply log_lift | apply log_ret
               | by apply log_call].
Qed.

Lemma log_if {A} (b : bool) (m1 m2 : M A) :
  Forall P (log m1) → Forall P (log m2) → Forall P (log (if b then m1 else m2)).
Proof. by destruct b. Qed.
End Logs.

Ltac log_steps :=
  repeat first
    [ apply log_try; [|intros ?]
    | apply log_if
    | apply log_bind; [|intros ?]
    | apply log_ret
    | apply log_lift
    | apply log_external
    | apply log_entry
    | apply log_call ].

(** The prescription handler calls none of the helpers. *)
Lemma prescription_log E model req :
  Forall (λ e, ∀ h, e ≠ EvCall h) (log (predict_prescription E model req)).
Proof. unfold predict_prescription, error_response. log_steps; done. Qed.

(** The box handler calls two of them. *)
Lemma box_log E model req :
  Forall (λ e, ∀ h, e = EvCall h → h = Clean_text_value ∨ h = Clean_date)
         (log (predict_box E model req)).
Proof.
  unfold predict_box, error_response. log_steps; intros ? [=]; subst; auto.
Qed.

(** ** Requests *)

Lemma first_of_None {A} key (l : list (str * A)) :
  first_of key l = None ↔ ∀ a, (key, a) ∉ l.
Proof.
  unfold first_of. rewrite fmap_None. split.
  - intros Hnone a Hin%list_elem_of_In.
    apply (find_none _ _ Hnone) in Hin. cbn in Hin. by case_bool_decide.
  - intros Hno. destruct (find _ l) as [[k a]|] eqn:Hf; [|done].
    apply find_some in Hf as [Hin Hk]. cbn in Hk. apply bool_decide_eq_true in Hk as ->.
    by apply list_elem_of_In, Hno in Hin.
Qed.

Lemma has_field_false key l :
  has_field key l = false ↔ ∀ data, (key, data) ∉ l.
Proof.
  unfold has_field. rewrite bool_decide_eq_false, <- first_of_None.
  rewrite <- not_eq_None_Some. split; [apply dec_stable|auto].
Qed.

Lemma has_field_true key l :
  has_field key l = true → ∃ file, first_of key l = Some file.
Proof. unfold has_field. intros H%bool_decide_eq_true. exact H. Qed.

(** ** What a handler that answered 200 went through *)

Section Success.
Context (E : Env) (model : str) (req : request).

Lemma handler_total (m : M http_response) :
  ∃ r, result (try_except m (error_response E)) = Ok r.
Proof. unfold try_except. destruct (result m) eqn:Hm; rewrite ?Hm; eauto. Qed.

Lemma try_200 (m : M http_response) r :
  result (try_except m (error_response E)) = Ok r → status r = 200%Z →
  result m = Ok r.
Proof.
  unfold try_except. destruct (result m) eqn:Hm; [by rewrite Hm|].
  cbn. by intros [= <-].
Qed.

Ltac step H x Hx :=
  rewrite result_bind in H; apply outcome_bind_Ok in H as (x & Hx & H).

Lemma box_200 r :
  result (predict_box E model req) = Ok r → status r = 200%Z →
  ∃ file image image' reply text data n s x m,
    first_of (lit "image") (files req) = Some file
    ∧ Image_open E file = Ok image
    ∧ exif_transpose E image = Ok image'
    ∧ generate_content E model BOX_PROMPT image' = Ok reply
    ∧ reply_text E reply = Ok text
    ∧ json_loads E (strip_fences text) = Ok data
    ∧ normalised clean_text_value data (lit "medicineName") = Ok n
    ∧ normalised clean_text_value data (lit "strength") = Ok s
    ∧ normalised clean_date data (lit "expiryDate") = Ok x
    ∧ normalised clean_date data (lit "manufacturingDate") = Ok m
    ∧ r = {| body := jsonify [(lit "status", VStr (lit "success"));
                             (lit "fields", VDict (box_fields n s x m));
                             (lit "detections", VDict (box_fields n s x m))];
             status := 200 |}.
Proof.
  intros H Hst. apply try_200 in H; [|done]. unfold predict_box in H.
  destruct (has_field _ _) eqn:Hfield; cbn [negb] in H.
  2:{ injection H as <-. done. }
  step H file Hfile. step H image Himage. step H image' Himage'.
  step H reply Hreply. step H text Htext. step H data Hdata.
  step H v1 H1. step H v2 H2. step H v3 H3. step H v4 H4.
  step H v5 H5. step H v6 H6. step H v7 H7. step H v8 H8.
  rewrite result_lift in Hfile. rewrite result_lift in Htext.
  rewrite result_external in Himage. rewrite result_external in Himage'.
  rewrite result_external in Hreply. rewrite result_external in Hdata.
  rewrite result_entry in H1, H2, H3, H4, H5, H6, H7, H8.
  unfold getitem in Hfile.
  destruct (first_of _ _) as [file'|] eqn:Hfirst; [|done]. injection Hfile as ->.
  apply outcome_bind_Ok in H1 as (n & Hn & [= <-]).
  apply outcome_bind_Ok in H2 as (s & Hs & [= <-]).
  apply outcome_bind_Ok in H3 as (x & Hx & [= <-]).
  apply outcome_bind_Ok in H4 as (m & Hm & [= <-]).
  rewrite Hn in H5. rewrite Hs in H6. rewrite Hx in H7. rewrite Hm in H8.
  cbn in H5, H6, H7, H8. injection H5 as <-. injection H6 as <-.
  injection H7 as <-. injection H8 as <-.
  exists file, image, image', reply, text, data, n, s, x, m.
  split_and!; try done. cbn in H. by injection H as <-.
Qed.
End Success.

(** ** The maps of a box response *)

Ltac lit_ne := let H := fresh in intros H; vm_compute in H; discriminate H.

Lemma kept_str t : kept (VStr t) = true ↔ t ≠ [].
Proof.
  unfold kept. cbn. rewrite andb_true_iff, !negb_true_iff, !bool_decide_eq_false. tauto.
Qed.

(** The eight keys, each bound to its value when that value is not empty. *)
Lemma box_fields_lookup n s x m k v :
  box_fields n s x m !! k = Some v ↔
  ∃ t, v = VStr t ∧ t ≠ []
       ∧ ((k = lit "medicineName" ∨ k = lit "Medicine_Name") ∧ t = n
          ∨ (k = lit "strength" ∨ k = lit "Strength") ∧ t = s
          ∨ (k = lit "expiryDate" ∨ k = lit "EXP_Date") ∧ t = x
          ∨ (k = lit "manufacturingDate" ∨ k = lit "MFG_Date") ∧ t = m).
Proof.
  unfold box_fields, dict. cbn [foldl fst snd].
  rewrite map_lookup_filter_Some. cbn [snd].
  rewrite !lookup_insert_Some, lookup_empty. split.
  - intros [Hk Hkept].
    repeat (destruct Hk as [[<- <-]|[_ Hk]];
            [apply kept_str in Hkept; eexists; split_and!; [reflexivity|done|];
             intuition auto|]).
    done.
  - intros (t & -> & Hne & Hk). rewrite kept_str. split; [|done].
    destruct Hk as [[[-> | ->] ->]|[[[-> | ->] ->]|[[[-> | ->] ->]|[[-> | ->] ->]]]];
      repeat first [left; split; reflexivity | right; split; [lit_ne|]].
Qed.

(** ** Running the handlers in the concrete world *)

Lemma demo_box_run :
  predict_box demo_world demo_model demo_request
  = Run (Ok demo_box_response)
        [EvImageOpen [Byte.xff; Byte.xd8; Byte.xff; Byte.xe0];
         EvExifTranspose;
         EvGenerate demo_model BOX_PROMPT;
         EvJsonLoads demo_document;
         EvCall Clean_text_value; EvCall Clean_text_value;
         EvCall Clean_date; EvCall Clean_date;
         EvCall Clean_text_value; EvCall Clean_text_value;
         EvCall Clean_date; EvCall Clean_date].
Proof. vm_compute. reflexivity. Qed.

Lemma demo_prescription_run :
  predict_prescription demo_world demo_model demo_request
  = Run (Ok {| body := jsonify [(lit "status", VStr (lit "success"));
                                (lit "medicines", VList [])];
               status := 200 |})
        [EvImageOpen [Byte.xff; Byte.xd8; Byte.xff; Byte.xe0];
         EvExifTranspose;
         EvGenerate demo_model PRESCRIPTION_PROMPT;
         EvJsonLoads demo_document].
Proof. vm_compute. reflexivity. Qed.

(** ** Forward steps of a handler *)

Lemma bind_lift_Ok {A B} (o : outcome A) a (f : A → M B) :
  o = Ok a → lift o ≫= f = f a.
Proof. intros ->. unfold mbind, M_bind. cbn. by destruct (f a). Qed.

Lemma bind_external_Ok {A B} e (o : outcome A) a (f : A → M B) :
  o = Ok a → external e o ≫= f = Run (result (f a)) (e :: log (f a)).
Proof. by intros ->. Qed.

Lemma bind_external_Raise {A B} e (o : outcome A) x (f : A → M B) :
  o = Raise x → external e o ≫= f = Run (Raise x) [e].
Proof. by intros ->. Qed.

Lemma bind_Run_Ok {A B} (a : A) l (f : A → M B) :
  Run (Ok a) l ≫= f = Run (result (f a)) (l ++ log (f a)).
Proof. done. Qed.

Lemma try_Run_Ok {A} (a : A) l handler : try_except (Run (Ok a) l) handler = Run (Ok a) l.
Proof. done. Qed.

Lemma try_Run_Raise {A} x l (handler : exn → M A) :
  try_except (Run (Raise x) l) handler
  = Run (result (handler x)) (l ++ log (handler x)).
Proof. done. Qed.

Section Prescription.
Context (E : Env) (model : str) (req : request).

Lemma inner_try (text : str) :
  result (try_except
            (data ← external (EvJsonLoads (strip_fences text))
                             (json_loads E (strip_fences text));
             lift (get data (lit "medicines") (VList [])))
            (λ _, mret (VList [])))
  = Ok (medicines_of E text).
Proof.
  unfold medicines_of.
  destruct (json_loads E (strip_fences text)) as [data|x].
  - rewrite (bind_external_Ok _ _ data) by done. cbn [result log lift mbind outcome_bind].
    by destruct (get data _ _).
  - by rewrite (bind_external_Raise _ _ x).
Qed.

Lemma prescription_200 r :
  result (predict_prescription E model req) = Ok r → status r = 200%Z →
  ∃ file image image' reply text,
    first_of (lit "image") (files req) = Some file
    ∧ Image_open E file = Ok image
    ∧ exif_transpose E image = Ok image'
    ∧ generate_content E model PRESCRIPTION_PROMPT image' = Ok reply
    ∧ reply_text E reply = Ok text
    ∧ r = {| body := jsonify [(lit "status", VStr (lit "success"));
                             (lit "medicines", medicines_of E text)];
             status := 200 |}.
Proof.
  intros H Hst. apply try_200 in H; [|done]. unfold predict_prescription in H.
  destruct (has_field _ _) eqn:Hfield; cbn [negb] in H.
  2:{ injection H as <-. done. }
  rewrite result_bind in H; apply outcome_bind_Ok in H as (file & Hfile & H).
  rewrite result_bind in H; apply outcome_bind_Ok in H as (image & Himage & H).
  rewrite result_bind in H; apply outcome_bind_Ok in H as (image' & Himage' & H).
  rewrite result_bind in H; apply outcome_bind_Ok in H as (reply & Hreply & H).
  rewrite result_bind in H; apply outcome_bind_Ok in H as (text & Htext & H).
  rewrite result_bind in H; apply outcome_bind_Ok in H as (meds & Hmeds & H).
  rewrite inner_try in Hmeds. injection Hmeds as <-.
  rewrite result_lift in Hfile. rewrite result_lift in Htext.
  rewrite result_external in Himage. rewrite result_external in Himage'.
  rewrite result_external in Hreply.
  unfold getitem in Hfile.
  destruct (first_of _ _) as [file'|] eqn:Hfirst; [|done]. injection Hfile as ->.
  exists file, image, image', reply, text. split_and!; try done.
  cbn in H. by injection H as <-.
Qed.
End Prescription.

(** *** The maps of a box response, key by key *)

Ltac pick_entry :=
  apply list_elem_of_In; cbn [In box_entries];
  repeat first [left; reflexivity | right].

Lemma box_fields_key n s x m k t :
  (k, t) ∈ box_entries n s x m →
  box_fields n s x m !! k = if bool_decide (t = []) then None else Some (VStr t).
Proof.
  intros Hin. case_bool_decide as Ht.
  - apply eq_None_not_Some. intros [v (t' & -> & Hne & Hk)%box_fields_lookup].
    apply list_elem_of_In in Hin. cbn [In box_entries] in Hin.
    destruct Hin as [Hin|[Hin|[Hin|[Hin|[Hin|[Hin|[Hin|[Hin|[]]]]]]]]];
      injection Hin as <- <-;
      destruct Hk as [[[Hk|Hk] Hv]|[[[Hk|Hk] Hv]|[[[Hk|Hk] Hv]|[[Hk|Hk] Hv]]]];
      first [vm_compute in Hk; discriminate Hk | congruence].
  - apply box_fields_lookup. exists t. split_and!; [reflexivity|exact Ht|].
    apply list_elem_of_In in Hin. cbn [In box_entries] in Hin.
    destruct Hin as [Hin|[Hin|[Hin|[Hin|[Hin|[Hin|[Hin|[Hin|[]]]]]]]]];
      injection Hin as <- <-; auto 10.
Qed.

Lemma box_fields_dom n s x m k :
  is_Some (box_fields n s x m !! k) → k ∈ (box_entries n s x m).*1.
Proof.
  intros [v (t & _ & _ & Hk)%box_fields_lookup].
  apply list_elem_of_In. cbn.
  destruct Hk as [[[-> | ->] _]|[[[-> | ->] _]|[[[-> | ->] _]|[[-> | ->] _]]]]; tauto.
Qed.

(** ** Code fences *)


(** Both handlers always answer. *)
Lemma handlers_answer (E : Env) (model : str) (req : request) :
  (∃ r, result (predict_prescription E model req) = Ok r)
  ∧ (∃ r, result (predict_box E model req) = Ok r).
Proof. split; apply handler_total. Qed.

(** ** The request handlers *)

(** C1.  A POST to /predict-prescription or /predict-box whose form has no
    field named "image" is answered with status 400 and the body
    {"error": "No image"}; nothing is logged, so no image was decoded and the
    model was not called. *)
Theorem missing_image_is_rejected (E : Env) (model : str) (req : request)
    (Hmissing : ∀ data, (lit "image", data) ∉ files req) :
  predict_prescription E model req = Run (Ok no_image) []
  ∧ predict_box E model req = Run (Ok no_image) []
  ∧ no_image = {| body := VDict {[ lit "error" := VStr (lit "No image") ]};
                  status := 400 |}.
Proof.
  apply has_field_false in Hmissing.
  unfold predict_prescription, predict_box. rewrite Hmissing. done.
Qed.

Lemma missing_image_is_rejected_witness :
  predict_prescription demo_world demo_model empty_request = Run (Ok no_image) []
  ∧ predict_box demo_world demo_model empty_request = Run (Ok no_image) []
  ∧ no_image = {| body := VDict {[ lit "error" := VStr (lit "No image") ]};
                  status := 400 |}.
Proof.
  apply (missing_image_is_rejected demo_world demo_model empty_request).
  intros data Hin. apply list_elem_of_In in Hin. vm_compute in Hin.
  destruct Hin as [Hin|[]]. discriminate Hin.
Defined.



Lemma not_called {A} (h : helper) (m : M A) (P : event → Prop) :
  Forall P (log m) → ¬ P (EvCall h) → ¬ calls h m.
Proof. unfold calls. rewrite Forall_forall. intros Hall Hno Hin. by apply Hno, Hall. Qed.

Lemma ascii_upper_not_p c : Py.ascii_upper c ≠ chr "p".
Proof.
  unfold Py.ascii_upper, Py.is_lower. norm_chars.
  destruct (_ && _) eqn:Hl; [apply andb_true_iff in Hl as [?%N.leb_le ?%N.leb_le]; lia|].
  intros ->. discriminate Hl.
Qed.

(** The term corrector on a string of three characters or more. *)
Lemma fix_spelling_long (C : Py.CaseOps) (lookup : str → list str) (raw : str) :
  (3 <=? length raw)%nat = true →
  fix_spelling lookup (VStr raw)
  = match lookup (Py.lower (Py.strip (Py.sub_class NOT_ALPHA [] raw))) with
    | term :: _ => Ok (VStr (Py.title term))
    | [] => Ok (VStr (Py.title raw))
    end.
Proof.
  intros Hlen%Nat.leb_le. unfold fix_spelling.
  destruct raw as [|c raw]; [cbn in Hlen; lia|].
  cbn [truthy negb]. rewrite bool_decide_eq_false_2 by done.
  cbn [negb len mbind outcome_bind].
  rewrite (proj2 (Nat.ltb_ge _ _)) by done.
  cbn [re_sub mbind outcome_bind method]. by destruct (lookup _).
Qed.

(** C2, as the code has it.  Neither route applies the term corrector.  The
    prescription handler returns the medicine list as parsed, and the box
    handler returns [clean_text_value] of the name and the strength and
    [clean_date] of the two dates, each under its two keys. *)
Theorem no_route_corrects_terms (E : Env) (model : str) (req : request) :
  ¬ calls Fix_spelling (predict_prescription E model req)
  ∧ ¬ calls Fix_spelling (predict_box E model req)
  ∧ (∀ r, result (predict_prescription E model req) = Ok r → status r = 200%Z →
       ∃ file image image' reply text,
         first_of (lit "image") (files req) = Some file
         ∧ Image_open E file = Ok image
         ∧ exif_transpose E image = Ok image'
         ∧ generate_content E model PRESCRIPTION_PROMPT image' = Ok reply
         ∧ reply_text E reply = Ok text
         ∧ (∀ d, json_loads E (strip_fences text) = Ok (VDict d) →
                 body r = jsonify [(lit "status", VStr (lit "success"));
                                   (lit "medicines", default (VList []) (d !! lit "medicines"))]))
  ∧ (∀ r, result (predict_box E model req) = Ok r → status r = 200%Z →
       ∃ file image image' reply text data n s x m,
         first_of (lit "image") (files req) = Some file
         ∧ Image_open E file = Ok image
         ∧ exif_transpose E image = Ok image'
         ∧ generate_content E model BOX_PROMPT image' = Ok reply
         ∧ reply_text E reply = Ok text
         ∧ json_loads E (strip_fences text) = Ok data
         ∧ normalised clean_text_value data (lit "medicineName") = Ok n
         ∧ normalised clean_text_value data (lit "strength") = Ok s
         ∧ normalised clean_date data (lit "expiryDate") = Ok x
         ∧ normalised clean_date data (lit "manufacturingDate") = Ok m
         ∧ body r = jsonify [(lit "status", VStr (lit "success"));
                             (lit "fields", VDict (box_fields n s x m));
                             (lit "detections", VDict (box_fields n s x m))]).
Proof.
  split_and!.
  - eapply not_called; [apply prescription_log|]. intros H. by apply (H Fix_spelling).
  - eapply not_called; [apply box_log|]. intros H. by destruct (H Fix_spelling).
  - intros r Hr Hst.
    destruct (prescription_200 E model req r Hr Hst)
      as (file & image & image' & reply & text & ? & ? & ? & ? & ? & ->).
    exists file, image, image', reply, text. split_and!; try done.
    intros d Hd. unfold medicines_of. rewrite Hd. cbn. by destruct (d !! _).
  - intros r Hr Hst.
    destruct (box_200 E model req r Hr Hst)
      as (file & image & image' & reply & text & data & n & s & x & m
          & ? & ? & ? & ? & ? & ? & ? & ? & ? & ? & ->).
    exists file, image, image', reply, text, data, n, s, x, m. by split_and!.
Qed.

Lemma no_route_corrects_terms_witness :
  ∃ n s x m,
    normalised clean_text_value demo_data (lit "medicineName") = Ok n
    ∧ normalised clean_text_value demo_data (lit "strength") = Ok s
    ∧ normalised clean_date demo_data (lit "expiryDate") = Ok x
    ∧ normalised clean_date demo_data (lit "manufacturingDate") = Ok m
    ∧ body demo_box_response
      = jsonify [(lit "status", VStr (lit "success"));
                 (lit "fields", VDict (box_fields n s x m));
                 (lit "detections", VDict (box_fields n s x m))].
Proof.
  destruct (proj2 (proj2 (proj2
              (no_route_corrects_terms demo_world demo_model demo_request)))
              demo_box_response)
    as (file & image & image' & reply & text & data & n & s & x & m
        & _ & _ & _ & Hreply & Htext & Hdata & Hn & Hs & Hx & Hm & Hbody).
  - by rewrite demo_box_run.
  - reflexivity.
  - injection Hreply as <-. injection Htext as <-.
    assert (Ok data = Ok demo_data) as [= ->].
    { rewrite <- Hdata. vm_compute. reflexivity. }
    exists n, s, x, m. split_and!; assumption.
Defined.

(** C2, as the specification has it, fails for the box route.  For the demo
    box the handler returns the name "paracetamoll" and never calls the term
    corrector, which would have answered "Paracetamol" with the word in its
    index and cannot answer "paracetamoll" whatever its index holds. *)
Lemma box_route_does_not_correct_terms :
  result (predict_box demo_world demo_model demo_request) = Ok demo_box_response
  ∧ demo_fields !! lit "medicineName" = Some (VStr (lit "paracetamoll"))
  ∧ ¬ calls Fix_spelling (predict_box demo_world demo_model demo_request)
  ∧ fix_spelling (C:=Py.excerpt) demo_lookup (VStr (lit "paracetamoll*"))
    = Ok (VStr (lit "Paracetamol"))
  ∧ fix_spelling (C:=Py.excerpt) demo_lookup (VStr (lit "paracetamoll"))
    = Ok (VStr (lit "Paracetamol"))
  ∧ ∀ (lookup : str → list str) (raw : str),
      raw = lit "paracetamoll*" ∨ raw = lit "paracetamoll" →
      fix_spelling (C:=Py.excerpt) lookup (VStr raw) ≠ Ok (VStr (lit "paracetamoll")).
Proof.
  split_and!.
  - by rewrite demo_box_run.
  - reflexivity.
  - rewrite demo_box_run. unfold calls. cbn [log].
    intros Hin%list_elem_of_In. cbn in Hin. intuition discriminate.
  - reflexivity.
  - reflexivity.
  - intros lookup raw Hraw.
    assert (Py.title (CaseOps:=Py.excerpt) raw ≠ lit "paracetamoll") as Htitle
      by (destruct Hraw as [-> | ->]; vm_compute; discriminate).
    rewrite (fix_spelling_long Py.excerpt lookup raw)
      by (destruct Hraw as [-> | ->]; reflexivity).
    destruct (lookup _) as [|[|c term] ?]; intros [= Heq].
    + exact (Htitle Heq).
    + exact (ascii_upper_not_p c Heq).
Qed.

(** C5.  Neither handler calls [clean_strength].  In a successful box
    response, built from the object the model's answer parsed to, the strength
    under both of its keys is [clean_text_value] of the raw strength (absent
    when that is empty): a raw "5O0mg" stays "5O0mg", where [clean_strength]
    would have made it "500MG". *)
Theorem strength_is_not_normalised (E : Env) (model : str) (req : request) :
  ¬ calls Clean_strength (predict_prescription E model req)
  ∧ ¬ calls Clean_strength (predict_box E model req)
  ∧ (∀ r, result (predict_box E model req) = Ok r → status r = 200%Z →
       ∃ file image image' reply text data raw cleaned n x m,
         first_of (lit "image") (files req) = Some file
         ∧ Image_open E file = Ok image
         ∧ exif_transpose E image = Ok image'
         ∧ generate_content E model BOX_PROMPT image' = Ok reply
         ∧ reply_text E reply = Ok text
         ∧ json_loads E (strip_fences text) = Ok data
         ∧ get data (lit "strength") (VStr []) = Ok raw
         ∧ clean_text_value raw = Ok cleaned
         ∧ normalised clean_text_value data (lit "medicineName") = Ok n
         ∧ normalised clean_date data (lit "expiryDate") = Ok x
         ∧ normalised clean_date data (lit "manufacturingDate") = Ok m
         ∧ body r = jsonify [(lit "status", VStr (lit "success"));
                             (lit "fields", VDict (box_fields n cleaned x m));
                             (lit "detections", VDict (box_fields n cleaned x m))]
         ∧ box_fields n cleaned x m !! lit "strength"
           = (if bool_decide (cleaned = []) then None else Some (VStr cleaned))
         ∧ box_fields n cleaned x m !! lit "Strength"
           = (if bool_decide (cleaned = []) then None else Some (VStr cleaned)))
  ∧ clean_text_value (VStr (lit "5O0mg")) = Ok (lit "5O0mg")
  ∧ (∀ C : Py.CaseOps, Py.ascii_faithful C →
       clean_strength (VStr (lit "5O0mg")) = Ok (lit "500MG")).
Proof.
  split_and!.
  - eapply not_called; [apply prescription_log|]. intros H. by apply (H Clean_strength).
  - eapply not_called; [apply box_log|]. intros H. by destruct (H Clean_strength).
  - intros r Hr Hst.
    destruct (box_200 E model req r Hr Hst)
      as (file & image & image' & reply & text & data & n & s & x & m
          & Hfile & Hopen & Hexif & Hreply & Htext & Hdata & Hn & Hs & Hx & Hm & ->).
    unfold normalised in Hs. apply outcome_bind_Ok in Hs as (raw & Hraw & Hs).
    exists file, image, image', reply, text, data, raw, s, n, x, m.
    split_and!; try assumption; try reflexivity.
    + apply (box_fields_key n s x m (lit "strength") s). pick_entry.
    + apply (box_fields_key n s x m (lit "Strength") s). pick_entry.
  - reflexivity.
  - intros C HC. rewrite clean_strength_unfold, described_ascii by done. reflexivity.
Qed.

Lemma strength_is_not_normalised_witness :
  ∃ file image image' reply text data raw cleaned n x m,
    first_of (lit "image") (files demo_request) = Some file
    ∧ Image_open demo_world file = Ok image
    ∧ exif_transpose demo_world image = Ok image'
    ∧ generate_content demo_world demo_model BOX_PROMPT image' = Ok reply
    ∧ reply_text demo_world reply = Ok text
    ∧ json_loads demo_world (strip_fences text) = Ok data
    ∧ get data (lit "strength") (VStr []) = Ok raw
    ∧ clean_text_value raw = Ok cleaned
    ∧ normalised clean_text_value data (lit "medicineName") = Ok n
    ∧ normalised clean_date data (lit "expiryDate") = Ok x
    ∧ normalised clean_date data (lit "manufacturingDate") = Ok m
    ∧ body demo_box_response
      = jsonify [(lit "status", VStr (lit "success"));
                 (lit "fields", VDict (box_fields n cleaned x m));
                 (lit "detections", VDict (box_fields n cleaned x m))]
    ∧ box_fields n cleaned x m !! lit "strength"
      = (if bool_decide (cleaned = []) then None else Some (VStr cleaned))
    ∧ box_fields n cleaned x m !! lit "Strength"
      = (if bool_decide (cleaned = []) then None else Some (VStr cleaned)).
Proof.
  apply (proj1 (proj2 (proj2
           (strength_is_not_normalised demo_world demo_model demo_request)))
           demo_box_response).
  - by rewrite demo_box_run.
  - reflexivity.
Defined.

(** C9.  In a successful box response no key of the [fields] map or of the
    [detections] map is bound to an empty value.  With the four values
    normalised from the object the model's answer parsed to, each of the
    eight keys is bound to its value when that value is not empty and is
    absent when it is empty, and no other key is present. *)
Theorem box_response_drops_empty_fields (E : Env) (model : str) (req : request)
    (r : http_response)
    (Hr : result (predict_box E model req) = Ok r) (H200 : status r = 200%Z) :
  ∃ (file : bytes) (image image' : Image E) (reply : Reply E) (text : str)
    (data : value) (n s x m : str) (b fields detections : gmap str value),
    first_of (lit "image") (files req) = Some file
    ∧ Image_open E file = Ok image
    ∧ exif_transpose E image = Ok image'
    ∧ generate_content E model BOX_PROMPT image' = Ok reply
    ∧ reply_text E reply = Ok text
    ∧ json_loads E (strip_fences text) = Ok data
    ∧ normalised clean_text_value data (lit "medicineName") = Ok n
    ∧ normalised clean_text_value data (lit "strength") = Ok s
    ∧ normalised clean_date data (lit "expiryDate") = Ok x
    ∧ normalised clean_date data (lit "manufacturingDate") = Ok m
    ∧ body r = VDict b
    ∧ b !! lit "fields" = Some (VDict fields)
    ∧ b !! lit "detections" = Some (VDict detections)
    ∧ (∀ k v, fields !! k = Some v ∨ detections !! k = Some v →
              ∃ t, v = VStr t ∧ t ≠ [])
    ∧ (∀ k t, (k, t) ∈ box_entries n s x m →
              fields !! k = (if bool_decide (t = []) then None else Some (VStr t))
              ∧ detections !! k
                = (if bool_decide (t = []) then None else Some (VStr t)))
    ∧ (∀ k, k ∉ (box_entries n s x m).*1 →
            fields !! k = None ∧ detections !! k = None).
Proof.
  destruct (box_200 E model req r Hr H200)
    as (file & image & image' & reply & text & data & n & s & x & m
        & Hfile & Hopen & Hexif & Hreply & Htext & Hdata & Hn & Hs & Hx & Hm & ->).
  eexists file, image, image', reply, text, data, n, s, x, m, _,
    (box_fields n s x m), (box_fields n s x m).
  split_and!; try assumption; try reflexivity.
  - intros k v [Hk|Hk]; apply box_fields_lookup in Hk as (t & -> & ? & _); eauto.
  - intros k t Hin. split; apply (box_fields_key n s x m k t Hin).
  - intros k Hk.
    assert (box_fields n s x m !! k = None) as Hnone; [|split; exact Hnone].
    apply eq_None_not_Some. intros Hsome. by apply Hk, box_fields_dom.
Qed.

Lemma box_response_drops_empty_fields_witness :
  ∃ (file : bytes) (image image' : Image demo_world) (reply : Reply demo_world) (text : str)
    (data : value) (n s x m : str) (b fields detections : gmap str value),
    first_of (lit "image") (files demo_request) = Some file
    ∧ Image_open demo_world file = Ok image
    ∧ exif_transpose demo_world image = Ok image'
    ∧ generate_content demo_world demo_model BOX_PROMPT image' = Ok reply
    ∧ reply_text demo_world reply = Ok text
    ∧ json_loads demo_world (strip_fences text) = Ok data
    ∧ normalised clean_text_value data (lit "medicineName") = Ok n
    ∧ normalised clean_text_value data (lit "strength") = Ok s
    ∧ normalised clean_date data (lit "expiryDate") = Ok x
    ∧ normalised clean_date data (lit "manufacturingDate") = Ok m
    ∧ body demo_box_response = VDict b
    ∧ b !! lit "fields" = Some (VDict fields)
    ∧ b !! lit "detections" = Some (VDict detections)
    ∧ (∀ k v, fields !! k = Some v ∨ detections !! k = Some v →
              ∃ t, v = VStr t ∧ t ≠ [])
    ∧ (∀ k t, (k, t) ∈ box_entries n s x m →
              fields !! k = (if bool_decide (t = []) then None else Some (VStr t))
              ∧ detections !! k
                = (if bool_decide (t = []) then None else Some (VStr t)))
    ∧ (∀ k, k ∉ (box_entries n s x m).*1 →
            fields !! k = None ∧ detections !! k = None).
Proof.
  apply (box_response_drops_empty_fields demo_world demo_model demo_request).
  - by rewrite demo_box_run.
  - reflexivity.
Defined.

(** C10.  In a successful box response the [fields] map and the
    [detections] map are the same map. *)
Theorem box_fields_equal_detections (E : Env) (model : str) (req : request)
    (r : http_response)
    (Hr : result (predict_box E model req) = Ok r) (H200 : status r = 200%Z) :
  ∃ (b fields detections : gmap str value),
    body r = VDict b
    ∧ b !! lit "fields" = Some (VDict fields)
    ∧ b !! lit "detections" = Some (VDict detections)
    ∧ fields = detections
    ∧ ∀ k, fields !! k = detections !! k.
Proof.
  destruct (box_200 E model req r Hr H200)
    as (file & image & image' & reply & text & data & n & s & x & m
        & _ & _ & _ & _ & _ & _ & _ & _ & _ & _ & ->).
  by eexists _, (box_fields n s x m), (box_fields n s x m).
Qed.

Lemma box_fields_equal_detections_witness :
  ∃ (b fields detections : gmap str value),
    body demo_box_response = VDict b
    ∧ b !! lit "fields" = Some (VDict fields)
    ∧ b !! lit "detections" = Some (VDict detections)
    ∧ fields = detections
    ∧ ∀ k, fields !! k = detections !! k.
Proof.
  apply (box_fields_equal_detections demo_world demo_model demo_request).
  - by rewrite demo_box_run.
  - reflexivity.
Defined.

(** * Further properties of the code *)

(** ** White space at the ends *)

Lemma lstrip_head s c : head (Py.lstrip s) = Some c → Py.isspace c = false.
Proof.
  induction s as [|d s IH]; [done|]. cbn.
  destruct (Py.isspace d) eqn:Hd; [done|]. cbn. by intros [= <-].
Qed.

Lemma lstrip_fixed s :
  (∀ c, head s = Some c → Py.isspace c = false) → Py.lstrip s = s.
Proof. destruct s as [|d s]; [done|]. intros H. cbn. by rewrite (H d). Qed.

Lemma head_reverse (s : str) : head (reverse s) = last s.
Proof.
  induction s as [|d s IH] using rev_ind; [done|].
  by rewrite reverse_app, last_snoc.
Qed.

Lemma rstrip_prefix s : ∃ post, s = Py.rstrip s ++ post.
Proof.
  unfold Py.rstrip. destruct (lstrip_suffix (reverse s)) as [pre Hpre].
  exists (reverse pre). by rewrite <- reverse_app, <- Hpre, reverse_involutive.
Qed.

Lemma rstrip_last s c : last (Py.rstrip s) = Some c → Py.isspace c = false.
Proof.
  unfold Py.rstrip. rewrite <- head_reverse, reverse_involutive. apply lstrip_head.
Qed.

Lemma rstrip_fixed s :
  (∀ c, last s = Some c → Py.isspace c = false) → Py.rstrip s = s.
Proof.
  intros H. unfold Py.rstrip. rewrite lstrip_fixed, reverse_involutive; [done|].
  intros c. rewrite head_reverse. apply H.
Qed.

Lemma strip_trimmed s : trimmed (Py.strip s).
Proof.
  intros c [Hc|Hc].
  - unfold Py.strip in Hc. destruct (rstrip_prefix (Py.lstrip s)) as [post Hpost].
    apply (lstrip_head s). rewrite Hpost.
    by destruct (Py.rstrip (Py.lstrip s)).
  - by apply rstrip_last in Hc.
Qed.

Lemma strip_fixed s : trimmed s → Py.strip s = s.
Proof.
  intros H. unfold Py.strip. rewrite lstrip_fixed by (intros; apply H; auto).
  apply rstrip_fixed. intros; apply H; auto.
Qed.

Lemma strip_sublist s : Py.strip s `sublist_of` s.
Proof.
  destruct (strip_inside s) as (pre & post & Hs). rewrite Hs at 2.
  apply sublist_inserts_l, sublist_inserts_r. done.
Qed.

(** ** The normalisers, beyond the claims *)

Lemma symbol_class c : Py.class_matches SYMBOLS c = is_symbol c.
Proof.
  unfold Py.class_matches, is_symbol, SYMBOLS. norm_chars.
  cbn [Py.negated Py.items existsb Py.item_matches xorb].
  apply eq_true_iff_eq.
  rewrite !orb_true_iff, bool_decide_eq_true, !N.eqb_eq, !elem_of_cons, elem_of_nil.
  intuition discriminate.
Qed.

Lemma clean_text_value_Ok v t :
  clean_text_value v = Ok t →
  t = [] ∨ ∃ s, v = VStr s ∧ t = Py.strip (filter (λ c, is_symbol c = false) s).
Proof.
  unfold clean_text_value. destruct (_ || _); [intros [= <-]; by left|].
  destruct v; try done. cbn. intros [= <-]. right. eexists. split; [done|].
  f_equal. rewrite sub_class_delete. apply list_filter_iff. intros c.
  by rewrite symbol_class.
Qed.

Lemma clean_date_Ok v x :
  clean_date v = Ok x →
  x = [] ∨ ∃ s, v = VStr s ∧ x = filter (λ c, is_date_char c = true) s.
Proof.
  unfold clean_date. destruct (_ || _); [intros [= <-]; by left|].
  destruct v; try done. cbn. intros [= <-]. right. eexists. split; [done|].
  rewrite sub_class_delete. apply list_filter_iff. intros c. apply date_class_keeps.
Qed.

Lemma date_chars_not_sentinel (x : str) :
  Forall (λ c, is_date_char c = true) x → x ≠ NOT_DETECTED.
Proof. intros H ->. apply Forall_cons_1 in H as [H _]. by vm_compute in H. Qed.

Lemma filter_fixed {A} (P : A → Prop) `{∀ a, Decision (P a)} (l : list A) :
  Forall P l → filter P l = l.
Proof.
  induction 1 as [|a l Ha _ IH]; [done|]. by rewrite filter_cons_True, IH.
Qed.

Lemma filter_Forall {A} (P : A → Prop) `{∀ a, Decision (P a)} (l : list A) :
  Forall P (filter P l).
Proof. apply Forall_forall. by intros a [? _]%list_elem_of_filter. Qed.

Lemma Forall_sublist {A} (P : A → Prop) (l1 l2 : list A) :
  Forall P l2 → l1 `sublist_of` l2 → Forall P l1.
Proof.
  rewrite !Forall_forall. intros H Hsub a Ha. eapply H, elem_of_sublist; eauto.
Qed.

(** X1.  [clean_date] is idempotent on every string: the result of a first
    pass holds only digits and separators, is never the sentinel, and a
    second pass returns it unchanged. *)
Theorem clean_date_idempotent (s : str) :
  (clean_date (VStr s) ≫= λ t, clean_date (VStr t)) = clean_date (VStr s).
Proof.
  rewrite clean_date_unfold. cbn [mbind outcome_bind]. rewrite clean_date_unfold.
  f_equal. unfold clean_date_described at 2 3.
  case_bool_decide as Hs; [done|].
  set (x := filter _ s).
  assert (Forall (λ c, is_date_char c = true) x) as Hx by apply filter_Forall.
  unfold clean_date_described. case_bool_decide as Hx'.
  - destruct Hx' as [Hnil|Hnd]; [done|]. by apply date_chars_not_sentinel in Hx.
  - by apply filter_fixed.
Qed.

(** X2.  Whatever value [clean_date] is given, a result it returns holds
    only the characters 0-9 / . and -; for a string input it is a subsequence
    of the input, so nothing is added or reordered. *)
Theorem clean_date_output (v : value) (x : str) (Hx : clean_date v = Ok x) :
  Forall (λ c, is_date_char c = true) x
  ∧ (∀ s, v = VStr s → x `sublist_of` s ∧ length x ≤ length s).
Proof.
  apply clean_date_Ok in Hx as [->|(s & -> & ->)].
  - split; [constructor|]. intros s _. split; [apply sublist_nil_l|cbn; lia].
  - split; [apply filter_Forall|]. intros ? [= <-].
    split; [apply sublist_filter|apply length_filter].
Qed.

Lemma clean_date_output_witness :
  Forall (λ c, is_date_char c = true) (lit "12/2025")
  ∧ (∀ s, VStr (lit "Exp: 12/2025!!") = VStr s →
          lit "12/2025" `sublist_of` s ∧ length (lit "12/2025") ≤ length s).
Proof.
  apply (clean_date_output (VStr (lit "Exp: 12/2025!!")) (lit "12/2025")).
  reflexivity.
Defined.

(** X3.  Whatever value [clean_text_value] is given, a result it returns
    holds none of the five marks, has no white space at either end, and for a
    string input is a subsequence of the input. *)
Theorem clean_text_value_output (v : value) (t : str)
    (Ht : clean_text_value v = Ok t) :
  Forall (λ c, is_symbol c = false) t
  ∧ trimmed t
  ∧ (∀ s, v = VStr s → t `sublist_of` s).
Proof.
  apply clean_text_value_Ok in Ht as [->|(s & -> & ->)].
  - split_and!; [constructor|by intros c [|]|intros; apply sublist_nil_l].
  - split_and!.
    + eapply Forall_sublist; [apply filter_Forall|apply strip_sublist].
    + apply strip_trimmed.
    + intros ? [= <-]. etrans; [apply strip_sublist|apply sublist_filter].
Qed.

Lemma clean_text_value_output_witness :
  Forall (λ c, is_symbol c = false) (lit "paracetamoll")
  ∧ trimmed (lit "paracetamoll")
  ∧ (∀ s, VStr (lit " paracetamoll* ") = VStr s → lit "paracetamoll" `sublist_of` s).
Proof.
  apply (clean_text_value_output (VStr (lit " paracetamoll* ")) (lit "paracetamoll")).
  reflexivity.
Defined.

(** X4.  A second pass of [clean_text_value] changes a result of the first
    pass in one case only: when the first pass produced the sentinel
    "Not Detected" itself (as it does for a padded or starred sentinel), the
    second pass empties it. *)
Theorem clean_text_value_second_pass (v : value) (t : str)
    (Ht : clean_text_value v = Ok t) :
  clean_text_value (VStr t) = Ok (if bool_decide (t = NOT_DETECTED) then [] else t).
Proof.
  assert (Forall (λ c, is_symbol c = false) t ∧ trimmed t) as [Hsym Htrim].
  { apply clean_text_value_Ok in Ht as [->|(s & -> & ->)].
    - split; [constructor|by intros c [|]].
    - split; [|apply strip_trimmed].
      eapply Forall_sublist; [apply filter_Forall|apply strip_sublist]. }
  unfold clean_text_value. rewrite sentinel_test.
  case_bool_decide as Hsent.
  - destruct Hsent as [->| ->]; [done|]. by rewrite bool_decide_eq_true_2.
  - rewrite bool_decide_eq_false_2 by tauto. cbn. f_equal.
    rewrite sub_class_delete.
    rewrite (list_filter_iff _ (λ c, is_symbol c = false))
      by (intros c; by rewrite symbol_class).
    rewrite filter_fixed by done. by apply strip_fixed.
Qed.

Lemma clean_text_value_second_pass_witness :
  clean_text_value (VStr (lit " Not Detected*")) = Ok NOT_DETECTED
  ∧ clean_text_value (VStr NOT_DETECTED) = Ok [].
Proof.
  split; [reflexivity|].
  apply (clean_text_value_second_pass (VStr (lit " Not Detected*")) NOT_DETECTED).
  reflexivity.
Defined.

(** X5.  What is not a string: JSON null, false, 0, 0.0, an empty array or
    object count as nothing detected and normalise to the empty string; any
    other number, [true], or a non-empty array or object makes
    [clean_text_value] and [clean_date] raise TypeError and [clean_strength]
    raise AttributeError. *)
Theorem normalisers_on_non_strings (C : Py.CaseOps) (v : value)
    (Hv : is_str v = false) :
  clean_text_value v = (if truthy v then Raise (TypeError v) else Ok [])
  ∧ clean_date v = (if truthy v then Raise (TypeError v) else Ok [])
  ∧ clean_strength v
    = (if truthy v then Raise (AttributeError v (lit "lower")) else Ok []).
Proof.
  unfold clean_text_value, clean_date, clean_strength.
  destruct v; try done; cbn [eq_str orb]; rewrite orb_false_r;
    by destruct (truthy _).
Qed.

Lemma normalisers_on_non_strings_witness :
  clean_text_value (VInt 500) = Raise (TypeError (VInt 500))
  ∧ clean_date VNone = Ok []
  ∧ clean_strength (C:=Py.excerpt) (VList [VInt 1])
    = Raise (AttributeError (VList [VInt 1]) (lit "lower")).
Proof.
  destruct (normalisers_on_non_strings Py.excerpt (VInt 500) eq_refl) as (H1 & _ & _).
  destruct (normalisers_on_non_strings Py.excerpt VNone eq_refl) as (_ & H2 & _).
  destruct (normalisers_on_non_strings Py.excerpt (VList [VInt 1]) eq_refl)
    as (_ & _ & H3).
  split_and!; [exact H1|exact H2|exact H3].
Defined.

Lemma strength_char_shape c :
  Py.is_ascii c = true → c ≠ SPACE →
  Py.is_lower (strength_char c) = false
  ∧ strength_char c ∉ [chr "O"; chr "L"; chr "o"; chr "l"; SPACE].
Proof.
  intros Hc%ascii_range Hsp.
  assert (Hall : Forall (λ c, c ≠ SPACE →
      Py.is_lower (strength_char c) = false
      ∧ strength_char c ∉ [chr "O"; chr "L"; chr "o"; chr "l"; SPACE])
      (N.of_nat <$> seq 0 128)).
  { refine (bool_decide_unpack _ _). vm_compute. exact I. }
  rewrite Forall_forall in Hall. by apply Hall.
Qed.

(** X6.  On ASCII text, with a case conversion that is right on ASCII, what
    [clean_strength] returns holds no space, no lower-case letter and no
    letter O or L (they have become 0 and 1), and is no longer than the
    input. *)
Theorem clean_strength_ascii_output (C : Py.CaseOps) (HC : Py.ascii_faithful C)
    (s t : str) (Hs : forallb Py.is_ascii s = true)
    (Ht : clean_strength (VStr s) = Ok t) :
  Forall (λ c, Py.is_lower c = false
               ∧ c ∉ [chr "O"; chr "L"; chr "o"; chr "l"; SPACE]) t
  ∧ length t ≤ length s.
Proof.
  rewrite clean_strength_unfold, (described_ascii C HC s Hs) in Ht.
  injection Ht as <-. case_bool_decide; [split; [constructor|cbn; lia]|].
  split.
  - apply Forall_fmap, Forall_forall. intros c [Hne Hin]%list_elem_of_filter.
    apply strength_char_shape; [|done].
    rewrite forallb_forall in Hs. by apply Hs, list_elem_of_In.
  - rewrite length_fmap. apply length_filter.
Qed.

Lemma clean_strength_ascii_output_witness :
  Forall (λ c, Py.is_lower c = false
               ∧ c ∉ [chr "O"; chr "L"; chr "o"; chr "l"; SPACE]) (lit "1500MG")
  ∧ length (lit "1500MG") ≤ length (lit "l5Oo mg").
Proof.
  apply (clean_strength_ascii_output Py.excerpt excerpt_faithful (lit "l5Oo mg"));
    reflexivity.
Defined.

(** ** The term corrector *)

Lemma alpha_class_keeps c :
  Py.class_matches NOT_ALPHA c = false ↔ Py.is_letter c || Py.isspace c = true.
Proof.
  unfold Py.class_matches, NOT_ALPHA, Py.is_letter, Py.is_upper, Py.is_lower.
  norm_chars. cbn [Py.negated Py.items]. rewrite xorb_true_l.
  cbn [existsb Py.item_matches]. rewrite orb_false_r, negb_false_iff.
  rewrite !orb_true_iff. tauto.
Qed.

Lemma fix_spelling_guard (C : Py.CaseOps) (lookup : str → list str)
    (v : value) (n : nat) :
  truthy v = false ∨ (len v = Ok n ∧ n < 3) → fix_spelling lookup v = Ok v.
Proof.
  unfold fix_spelling. intros [->|[Hlen Hn]]; [done|].
  destruct (truthy v); [|done]. cbn [negb]. rewrite Hlen. cbn [mbind outcome_bind].
  by rewrite (proj2 (Nat.ltb_lt _ _)).
Qed.

(** X7.  The term corrector returns its argument unchanged, without
    consulting the index, when the argument is falsy or has fewer than three
    characters (or elements). *)
Theorem fix_spelling_short_unchanged (C : Py.CaseOps) (lookup : str → list str)
    (v : value) (n : nat)
    (Hshort : truthy v = false ∨ (len v = Ok n ∧ n < 3)) :
  fix_spelling lookup v = Ok v.
Proof. by apply (fix_spelling_guard C lookup v n). Qed.

Lemma fix_spelling_short_unchanged_witness :
  fix_spelling (C:=Py.excerpt) demo_lookup (VStr (lit "b6")) = Ok (VStr (lit "b6")).
Proof.
  apply (fix_spelling_short_unchanged Py.excerpt demo_lookup (VStr (lit "b6")) 2).
  right. split; [reflexivity|lia].
Defined.

(** X8.  The term corrector never raises on a string.  A string of fewer
    than three characters comes back unchanged; a longer one is answered with
    the first suggestion of the index, title-cased, and only when the index
    has no suggestion with the title-cased input itself.  The index is asked
    for the input reduced to its ASCII letters and white space, stripped and
    lower-cased.  The corrector raises TypeError for a truthy value without a
    length (a number, [true]) and for an array or object of three or more
    elements. *)
Theorem fix_spelling_errors (C : Py.CaseOps) (lookup : str → list str) (v : value) :
  match v with
  | VStr s =>
      fix_spelling lookup v
      = Ok (VStr (if (length s <? 3)%nat then s
                  else match lookup (Py.lower (Py.strip
                                (filter (λ c, Py.is_letter c || Py.isspace c = true) s))) with
                       | term :: _ => Py.title term
                       | [] => Py.title s
                       end))
  | VNone => fix_spelling lookup v = Ok v
  | VBool _ | VInt _ | VFloat _ =>
      fix_spelling lookup v = if truthy v then Raise (TypeError v) else Ok v
  | VList l =>
      fix_spelling lookup v = if (length l <? 3)%nat then Ok v else Raise (TypeError v)
  | VDict d =>
      fix_spelling lookup v = if (size d <? 3)%nat then Ok v else Raise (TypeError v)
  end.
Proof.
  destruct v as [|b|z|f|s|l|d].
  - done.
  - by destruct b.
  - unfold fix_spelling. by destruct (truthy (VInt z)).
  - unfold fix_spelling. by destruct (truthy (VFloat f)).
  - destruct (length s <? 3)%nat eqn:Hlen.
    + apply Nat.ltb_lt in Hlen.
      apply (fix_spelling_guard C lookup (VStr s) (length s)).
      destruct s; [by left|]. right. split; [done|lia].
    + apply Nat.ltb_ge in Hlen.
      rewrite fix_spelling_long by by apply Nat.leb_le.
      rewrite sub_class_delete.
      rewrite (list_filter_iff _ (λ c, Py.is_letter c || Py.isspace c = true))
        by (intros c; apply alpha_class_keeps).
      by destruct (lookup _).
  - unfold fix_spelling. destruct l as [|a l]; [done|]. cbn [truthy negb len mbind outcome_bind].
    by destruct (_ <? _)%nat.
  - unfold fix_spelling. cbn [truthy]. case_bool_decide as Hd.
    + subst. done.
    + cbn [negb len mbind outcome_bind]. by destruct (_ <? _)%nat.
Qed.

(** ** Model selection, beyond the claim *)

Lemma first_flash_Some ms n :
  first_flash ms = Some n → ∃ m, m ∈ ms ∧ preferred m ∧ name m = n.
Proof.
  induction ms as [|m ms IH]; [done|]. cbn [first_flash].
  destruct (_ && _) eqn:Hm.
  - intros [= <-]. exists m. split_and!; [by left|by apply preferred_test|done].
  - intros (m' & ? & ? & ?)%IH. exists m'. split_and!; [by right|done..].
Qed.

Lemma first_flash_cut before m after :
  preferred m → first_flash (before ++ m :: after) = first_flash (before ++ [m]).
Proof.
  intros Hm%preferred_test. induction before as [|b before IH]; cbn [app first_flash].
  - by rewrite Hm.
  - rewrite IH. done.
Qed.

(** X9.  Whatever the enumeration does, the identifier the model is built
    from is never empty and is either the name of an enumerated model that
    supports content generation and has "flash" in its name, or one of the
    two constants; [active_model], when set, is that identifier, and it stays
    unset exactly when the enumeration raised before such a model came. *)
Theorem select_model_invariants (e : enumeration) :
  model (select_model e) ≠ []
  ∧ ((∃ m, m ∈ yielded e ∧ preferred m ∧ model (select_model e) = name m)
     ∨ model (select_model e) = lit "gemini-pro-vision"
     ∨ model (select_model e) = lit "gemini-1.5-flash")
  ∧ (∀ n, active_model (select_model e) = Some n → model (select_model e) = n)
  ∧ (active_model (select_model e) = None ↔
     Forall (λ m, ¬ preferred m) (yielded e) ∧ failure e ≠ None).
Proof.
  unfold select_model, for_loop.
  destruct (first_flash (yielded e)) as [n|] eqn:Hfirst.
  - destruct (first_flash_Some _ _ Hfirst) as (m & Hin & Hm & <-).
    rewrite bool_decide_eq_false_2 by by apply preferred_named. cbn.
    split_and!.
    + by apply preferred_named.
    + left. by exists m.
    + by intros ? [= <-].
    + split; [done|]. intros [Hall _]. rewrite Forall_forall in Hall. by destruct (Hall m).
  - apply first_flash_none in Hfirst.
    destruct (failure e) as [x|]; cbn; split_and!; try done; auto.
    + by intros ? [= <-].
    + split; [done|]. by intros [_ ?].
Qed.

(** X10.  The enumeration is read no further than the first preferred model:
    the models after it, and an error the enumeration would raise after it,
    do not change the selection. *)
Theorem select_model_ignores_rest (before after : list model_info) (m : model_info)
    (f : option exn) (Hm : preferred m) :
  select_model {| yielded := before ++ m :: after; failure := f |}
  = select_model {| yielded := before ++ [m]; failure := None |}.
Proof.
  unfold select_model, for_loop. cbn [yielded failure].
  rewrite (first_flash_cut before m after Hm).
  destruct (first_flash (before ++ [m])) eqn:Hfirst; [done|].
  apply first_flash_none, Forall_app in Hfirst as [_ Hno].
  apply Forall_cons_1 in Hno as [Hno _]. by destruct Hno.
Qed.

Lemma select_model_ignores_rest_witness :
  select_model
    {| yielded := [ {| name := lit "models/gemini-pro";
                       supported_generation_methods := [lit "generateContent"] |};
                    {| name := lit "models/gemini-1.5-flash";
                       supported_generation_methods := [lit "generateContent"] |};
                    {| name := lit "models/gemini-2.0-flash";
                       supported_generation_methods := [lit "generateContent"] |} ];
       failure := Some (LibraryError (lit "deadline exceeded")) |}
  = select_model
      {| yielded := [ {| name := lit "models/gemini-pro";
                         supported_generation_methods := [lit "generateContent"] |};
                      {| name := lit "models/gemini-1.5-flash";
                         supported_generation_methods := [lit "generateContent"] |} ];
         failure := None |}.
Proof.
  apply (select_model_ignores_rest
           [ {| name := lit "models/gemini-pro";
                supported_generation_methods := [lit "generateContent"] |} ]
           [ {| name := lit "models/gemini-2.0-flash";
                supported_generation_methods := [lit "generateContent"] |} ]
           {| name := lit "models/gemini-1.5-flash";
              supported_generation_methods := [lit "generateContent"] |}).
  split; [apply list_elem_of_In; vm_compute; tauto | reflexivity].
Defined.

(** ** Code fences, beyond the claim *)

Lemma replace_absent (old new s : str) :
  Py.contains old s = false → Py.replace old new s = s.
Proof.
  unfold Py.replace. destruct old as [|a old]; [by destruct s|].
  induction s as [|c s IH]; [done|]. cbn [Py.contains Py.replace_from].
  destruct (Py.startswith _ _); [done|]. intros H. by rewrite IH.
Qed.

Lemma replace_skip (old new k r : str) :
  Py.replace_from old new (length k) (k ++ r) = Py.replace_from old new 0 r.
Proof.
  induction k as [|c k IH]; [done|]. cbn [length app].
  destruct r as [|d r]; cbn [Py.replace_from]; exact IH.
Qed.

Lemma replace_here (a : char) (p new r : str) :
  Py.replace_from (a :: p) new 0 ((a :: p) ++ r)
  = new ++ Py.replace_from (a :: p) new 0 r.
Proof.
  cbn [app Py.replace_from].
  rewrite (proj2 (startswith_app (a :: p) (a :: p ++ r))) by eauto.
  cbn [length pred]. by rewrite replace_skip.
Qed.

Lemma replace_pass (a : char) (p new s r : str) :
  a ∉ s →
  Py.replace_from (a :: p) new 0 (s ++ r) = s ++ Py.replace_from (a :: p) new 0 r.
Proof.
  induction s as [|c s IH]; [done|]. rewrite not_elem_of_cons. intros [Hc Hs].
  cbn [app Py.replace_from Py.startswith].
  rewrite (proj2 (N.eqb_neq a c)) by done. cbn [andb]. by rewrite IH.
Qed.

Lemma lstrip_spaces (pre s : str) :
  Forall (λ c, Py.isspace c = true) pre → Py.lstrip (pre ++ s) = Py.lstrip s.
Proof. induction 1 as [|c pre Hc _ IH]; [done|]. cbn. by rewrite Hc. Qed.

Lemma rstrip_spaces (s post : str) :
  Forall (λ c, Py.isspace c = true) post → Py.rstrip (s ++ post) = Py.rstrip s.
Proof.
  intros H. unfold Py.rstrip. rewrite reverse_app, lstrip_spaces; [done|].
  by apply Forall_reverse.
Qed.

Lemma strip_padded (pre doc post : str) :
  Forall (λ c, Py.isspace c = true) pre → Forall (λ c, Py.isspace c = true) post →
  trimmed doc → Py.strip (pre ++ doc ++ post) = doc.
Proof.
  intros Hpre Hpost Hdoc. unfold Py.strip. rewrite lstrip_spaces by done.
  destruct doc as [|c doc].
  - cbn [app]. rewrite <- (app_nil_r post), lstrip_spaces by done. done.
  - rewrite lstrip_fixed.
    + rewrite rstrip_spaces by done. apply rstrip_fixed. intros; apply Hdoc; auto.
    + cbn. intros ? [= <-]. apply Hdoc. by left.
Qed.

Lemma spaces_hold_no_backtick (s : str) :
  Forall (λ c, Py.isspace c = true) s → chr "`" ∉ s.
Proof.
  rewrite Forall_forall. intros H Hin. apply H in Hin. by vm_compute in Hin.
Qed.

Lemma startswith_same (a : char) (p s : str) :
  Py.startswith (a :: p) (a :: s) = Py.startswith p s.
Proof. cbn. by rewrite N.eqb_refl. Qed.

Lemma startswith_other (a c : char) (p s : str) :
  a ≠ c → Py.startswith (a :: p) (c :: s) = false.
Proof. intros H. cbn. by rewrite (proj2 (N.eqb_neq a c)). Qed.

Lemma startswith_within (p s t : str) :
  (∀ a, a ∈ p → a ∉ t) → Py.startswith p (s ++ t) = true → Py.startswith p s = true.
Proof.
  revert s. induction p as [|a p IH]; intros s Hp; [done|].
  destruct s as [|c s]; cbn [app].
  - intros [rest Ht]%startswith_app. destruct (Hp a); [by left|].
    rewrite Ht. by left.
  - cbn [Py.startswith]. rewrite !andb_true_iff. intros [? Hs]. split; [done|].
    apply IH; [|done]. intros b Hb. apply Hp. by right.
Qed.

Lemma fence_end_stays (body : str) :
  chr "`" ∉ body →
  Py.replace_from (lit "```json") [] 0 (body ++ lit "```") = body ++ lit "```".
Proof.
  intros Hin. change (lit "```json") with (chr "`" :: lit "``json").
  by rewrite replace_pass.
Qed.

Lemma fence_end_goes (body : str) :
  chr "`" ∉ body → Py.replace_from (lit "```") [] 0 (body ++ lit "```") = body.
Proof.
  intros Hin. change (lit "```") with (chr "`" :: lit "``").
  rewrite replace_pass by done. rewrite <- (app_nil_r (chr "`" :: lit "``")) at 2.
  rewrite replace_here. cbn [app Py.replace_from]. by rewrite app_nil_r.
Qed.

Lemma replace_fences (s : str) :
  Py.replace (lit "```") [] (Py.replace (lit "```json") [] s)
  = Py.replace_from (lit "```") [] 0 (Py.replace_from (lit "```json") [] 0 s).
Proof. done. Qed.

Lemma unfence_tagged_body (body : str) :
  chr "`" ∉ body →
  Py.replace (lit "```") [] (Py.replace (lit "```json") [] (lit "```json" ++ body ++ lit "```"))
  = body.
Proof.
  intros Hin. rewrite replace_fences.
  change (Py.replace_from (lit "```json") [] 0 (lit "```json" ++ body ++ lit "```"))
    with (Py.replace_from (chr "`" :: lit "``json") [] 0
            ((chr "`" :: lit "``json") ++ body ++ lit "```")).
  rewrite replace_here. cbn [app].
  change (chr "`" :: lit "``json") with (lit "```json").
  rewrite fence_end_stays by done. by apply fence_end_goes.
Qed.

Lemma unfence_untagged_body (body : str) :
  chr "`" ∉ body → Py.startswith (lit "json") (body ++ lit "```") = false →
  Py.replace (lit "```") [] (Py.replace (lit "```json") [] (lit "```" ++ body ++ lit "```"))
  = body.
Proof.
  intros Hin Hjson. rewrite replace_fences.
  assert (Py.replace_from (lit "```json") [] 0 (lit "```" ++ body ++ lit "```")
          = lit "```" ++ body ++ lit "```") as ->.
  { change (lit "```json") with (chr "`" :: chr "`" :: chr "`" :: lit "json").
    change (lit "```" ++ body ++ lit "```")
      with (chr "`" :: chr "`" :: chr "`" :: body ++ lit "```").
    cbn [Py.replace_from]. rewrite !startswith_same, Hjson.
    destruct body as [|c body]; [reflexivity|].
    apply not_elem_of_cons in Hin as [Hc Hin]. cbn [app].
    rewrite (startswith_other (chr "`") c) by done.
    rewrite (startswith_other (chr "`") c) by done.
    do 3 f_equal.
    change (chr "`" :: chr "`" :: chr "`" :: lit "json") with (lit "```json").
    apply (fence_end_stays (c :: body)). rewrite not_elem_of_cons. done. }
  change (Py.replace_from (lit "```") [] 0 (lit "```" ++ body ++ lit "```"))
    with (Py.replace_from (chr "`" :: lit "``") [] 0
            ((chr "`" :: lit "``") ++ body ++ lit "```")).
  rewrite replace_here. cbn [app].
  change (chr "`" :: lit "``") with (lit "```"). by apply fence_end_goes.
Qed.

Lemma padded_no_backtick (pre doc post : str) :
  Forall (λ c, Py.isspace c = true) pre → Forall (λ c, Py.isspace c = true) post →
  chr "`" ∉ doc → chr "`" ∉ pre ++ doc ++ post.
Proof.
  intros Hpre Hpost Hdoc. rewrite !elem_of_app.
  intros [?|[?|?]];
    [by apply (spaces_hold_no_backtick pre)|done
    |by apply (spaces_hold_no_backtick post)].
Qed.

(** X11.  Unwrapping a fenced answer gives back the document: for a document
    that holds no backtick and has no white space at its ends, wrapped in a
    [json]-tagged fence with any white space inside the fence, [strip_fences]
    returns exactly the document. *)
Theorem unfence_round_trip (pre doc post : str)
    (Hpre : Forall (λ c, Py.isspace c = true) pre)
    (Hpost : Forall (λ c, Py.isspace c = true) post)
    (Hdoc : chr "`" ∉ doc) (Htrim : trimmed doc) :
  strip_fences (lit "```json" ++ pre ++ doc ++ post ++ lit "```") = doc.
Proof.
  unfold strip_fences.
  replace (pre ++ doc ++ post ++ lit "```") with ((pre ++ doc ++ post) ++ lit "```")
    by by rewrite <- !app_assoc.
  rewrite unfence_tagged_body by by apply padded_no_backtick.
  by apply strip_padded.
Qed.

Lemma unfence_round_trip_witness : strip_fences demo_reply = demo_document.
Proof.
  apply (unfence_round_trip NL demo_document NL).
  - by repeat constructor.
  - by repeat constructor.
  - intros Hin%list_elem_of_In. vm_compute in Hin. intuition discriminate.
  - intros c [Hc|Hc]; vm_compute in Hc; injection Hc as <-; reflexivity.
Defined.

(** X12.  The same holds for a fence without the tag, as long as the text
    inside the fence does not itself begin with the letters json (which
    would read as the tag). *)
Theorem unfence_untagged (pre doc post : str)
    (Hpre : Forall (λ c, Py.isspace c = true) pre)
    (Hpost : Forall (λ c, Py.isspace c = true) post)
    (Hdoc : chr "`" ∉ doc) (Htrim : trimmed doc)
    (Hjson : Py.startswith (lit "json") (pre ++ doc) = false) :
  strip_fences (lit "```" ++ pre ++ doc ++ post ++ lit "```") = doc.
Proof.
  unfold strip_fences.
  replace (pre ++ doc ++ post ++ lit "```") with ((pre ++ doc ++ post) ++ lit "```")
    by by rewrite <- !app_assoc.
  rewrite unfence_untagged_body; [by apply strip_padded|by apply padded_no_backtick|].
  apply not_true_is_false. intros Hs.
  replace ((pre ++ doc ++ post) ++ lit "```") with ((pre ++ doc) ++ post ++ lit "```") in Hs
    by by rewrite <- !app_assoc.
  apply startswith_within in Hs; [congruence|].
  intros a Ha Hin'. apply elem_of_app in Hin' as [Hin'|Hin'].
  - rewrite Forall_forall in Hpost. apply Hpost in Hin'.
    apply list_elem_of_In in Ha. vm_compute in Ha.
    destruct Ha as [<-|[<-|[<-|[<-|[]]]]]; by vm_compute in Hin'.
  - apply list_elem_of_In in Ha, Hin'. vm_compute in Ha, Hin'.
    intuition congruence.
Qed.

Lemma unfence_untagged_witness :
  strip_fences (lit "```" ++ NL ++ demo_document ++ NL ++ lit "```") = demo_document.
Proof.
  apply (unfence_untagged NL demo_document NL).
  - by repeat constructor.
  - by repeat constructor.
  - intros Hin%list_elem_of_In. vm_compute in Hin. intuition discriminate.
  - intros c [Hc|Hc]; vm_compute in Hc; injection Hc as <-; reflexivity.
  - reflexivity.
Defined.

(** X13.  An answer without any fence marker goes to the parser as it is,
    apart from the white space at its ends. *)
Theorem strip_fences_without_fence (text : str)
    (Hno : Py.contains (lit "```") text = false) :
  strip_fences text = Py.strip text.
Proof.
  unfold strip_fences.
  assert (Py.contains (lit "```json") text = false) as Htag.
  { destruct (Py.contains (lit "```json") text) eqn:Hc; [|done].
    apply contains_infix in Hc as (before & after & ->).
    assert (Py.contains (lit "```") (before ++ lit "```json" ++ after) = true) as Hc.
    { apply contains_infix. exists before, (lit "json" ++ after).
      change (lit "```json") with (lit "```" ++ lit "json"). by rewrite <- !app_assoc. }
    congruence. }
  by rewrite (replace_absent _ _ _ Htag), (replace_absent _ _ _ Hno).
Qed.

Lemma strip_fences_without_fence_witness :
  strip_fences (NL ++ demo_document ++ lit "  ") = Py.strip (NL ++ demo_document ++ lit "  ").
Proof. apply strip_fences_without_fence. reflexivity. Defined.

(** ** The handlers, beyond the claims *)

Lemma bind_lift_Raise {A B} (o : outcome A) x (f : A → M B) :
  o = Raise x → lift o ≫= f = Run (Raise x) [].
Proof. by intros ->. Qed.

Lemma bind_Run_Raise {A B} x l (f : A → M B) : Run (Raise x) l ≫= f = Run (Raise x) l.
Proof. done. Qed.

Lemma bind_elim {A B} (m : M A) (f : A → M B) (r : B) (P : Prop) :
  (∀ a, result (f a) = Ok r → P) → result (m ≫= f) = Ok r → P.
Proof. intros H. rewrite result_bind. intros (a & _ & Hr)%outcome_bind_Ok. eauto. Qed.

Ltac to_the_end :=
  repeat (cbv beta zeta; apply bind_elim; intros ?).

Lemma try_status E (m : M http_response) :
  (∀ r, result m = Ok r → status r = 200%Z) →
  ∃ r, result (try_except m (error_response E)) = Ok r
       ∧ (status r = 200%Z ∨ status r = 500%Z).
Proof.
  intros H. unfold try_except. destruct (result m) as [r|x] eqn:Hm.
  - rewrite Hm. exists r. auto.
  - eexists. split; [done|]. by right.
Qed.

(** A handler answers 400 without an image, and 200 or 500 with one. *)
Lemma prescription_status E model req :
  ∃ r, result (predict_prescription E model req) = Ok r
       ∧ if has_field (lit "image") (files req)
         then status r = 200%Z ∨ status r = 500%Z
         else r = no_image.
Proof.
  unfold predict_prescription. destruct (has_field _ _); cbn [negb]; [|by eexists].
  apply try_status. intros r. to_the_end. by intros [= <-].
Qed.

Lemma box_status E model req :
  ∃ r, result (predict_box E model req) = Ok r
       ∧ if has_field (lit "image") (files req)
         then status r = 200%Z ∨ status r = 500%Z
         else r = no_image.
Proof.
  unfold predict_box. destruct (has_field _ _); cbn [negb]; [|by eexists].
  apply try_status. intros r. to_the_end. by intros [= <-].
Qed.

(** X14.  Each handler always answers, with status 200, 400 or 500, and the
    status is 400 exactly when [request.files] has no entry named image, that
    is when no file was uploaded under that name (a plain text field named
    image is not in [request.files] and does not count). *)
Theorem handler_status_codes (E : Env) (model : str) (req : request) :
  (∃ r, result (predict_prescription E model req) = Ok r
        ∧ status r ∈ [200%Z; 400%Z; 500%Z]
        ∧ (status r = 400%Z ↔ ∀ data, (lit "image", data) ∉ files req))
  ∧ (∃ r, result (predict_box E model req) = Ok r
          ∧ status r ∈ [200%Z; 400%Z; 500%Z]
          ∧ (status r = 400%Z ↔ ∀ data, (lit "image", data) ∉ files req)).
Proof.
  split.
  - destruct (prescription_status E model req) as (r & Hr & Hst). exists r.
    split; [done|]. rewrite <- has_field_false.
    destruct (has_field _ _).
    + split; [destruct Hst as [-> | ->]; set_solver|].
      split; [destruct Hst as [-> | ->]; done|done].
    + subst r. split; [set_solver|done].
  - destruct (box_status E model req) as (r & Hr & Hst). exists r.
    split; [done|]. rewrite <- has_field_false.
    destruct (has_field _ _).
    + split; [destruct Hst as [-> | ->]; set_solver|].
      split; [destruct Hst as [-> | ->]; done|done].
    + subst r. split; [set_solver|done].
Qed.

Ltac with_image Hfile :=
  unfold predict_prescription, predict_box, has_field, getitem; rewrite Hfile;
  rewrite bool_decide_eq_true_2 by eauto; cbn [negb];
  rewrite (bind_lift_Ok _ _ _ eq_refl).

(** X15.  When the image cannot be decoded ([Image.open] raises, or
    [exif_transpose] does), both handlers answer 500 with the exception's
    text as the error, and the generative model is not called. *)
Theorem undecodable_image_is_500 (E : Env) (model : str) (req : request)
    (file : bytes) (x : exn)
    (Hfile : first_of (lit "image") (files req) = Some file)
    (Hfail : Image_open E file = Raise x
             ∨ ∃ image, Image_open E file = Ok image
                        ∧ exif_transpose E image = Raise x) :
  result (predict_prescription E model req)
  = Ok {| body := error_body E x; status := 500 |}
  ∧ result (predict_box E model req)
    = Ok {| body := error_body E x; status := 500 |}
  ∧ model_calls (predict_prescription E model req) = 0
  ∧ model_calls (predict_box E model req) = 0.
Proof.
  destruct Hfail as [Hopen|(image & Hopen & Hexif)]; split_and!; with_image Hfile.
  1-4: rewrite (bind_external_Raise _ _ x) by done; cbn [result log]; by rewrite ?try_Run_Raise.
  all: rewrite (bind_external_Ok _ _ image) by done;
    rewrite (bind_external_Raise _ _ x) by done; cbn [result log]; by rewrite ?try_Run_Raise.
Qed.

Lemma undecodable_image_is_500_witness :
  result (predict_prescription undecodable_world demo_model demo_request)
  = Ok {| body := error_body undecodable_world
                    (LibraryError (lit "cannot identify image file"));
          status := 500 |}
  ∧ result (predict_box undecodable_world demo_model demo_request)
    = Ok {| body := error_body undecodable_world
                      (LibraryError (lit "cannot identify image file"));
            status := 500 |}
  ∧ model_calls (predict_prescription undecodable_world demo_model demo_request) = 0
  ∧ model_calls (predict_box undecodable_world demo_model demo_request) = 0.
Proof.
  apply (undecodable_image_is_500 undecodable_world demo_model demo_request
           [Byte.xff; Byte.xd8; Byte.xff; Byte.xe0]).
  - reflexivity.
  - left. reflexivity.
Defined.

(** X16.  When a handler's call of the model raises, or reading the text of
    the answer to it does, that handler answers 500 with the exception's text,
    and nothing is parsed or normalised.  Each handler is concerned by the
    call with its own prompt only. *)
Theorem model_failure_is_500 (E : Env) (model : str) (req : request)
    (file : bytes) (image image' : Image E)
    (Hfile : first_of (lit "image") (files req) = Some file)
    (Hopen : Image_open E file = Ok image)
    (Hexif : exif_transpose E image = Ok image') :
  (∀ x, generate_content E model PRESCRIPTION_PROMPT image' = Raise x
        ∨ (∃ reply, generate_content E model PRESCRIPTION_PROMPT image' = Ok reply
                    ∧ reply_text E reply = Raise x) →
        predict_prescription E model req
        = Run (Ok {| body := error_body E x; status := 500 |})
              [EvImageOpen file; EvExifTranspose;
               EvGenerate model PRESCRIPTION_PROMPT])
  ∧ (∀ x, generate_content E model BOX_PROMPT image' = Raise x
          ∨ (∃ reply, generate_content E model BOX_PROMPT image' = Ok reply
                      ∧ reply_text E reply = Raise x) →
          predict_box E model req
          = Run (Ok {| body := error_body E x; status := 500 |})
                [EvImageOpen file; EvExifTranspose; EvGenerate model BOX_PROMPT]).
Proof.
  split; intros x Hfail; with_image Hfile;
    rewrite (bind_external_Ok _ _ image) by done;
    rewrite (bind_external_Ok _ _ image') by done;
    destruct Hfail as [Hgen|(reply & Hgen & Htext)].
  - rewrite (bind_external_Raise _ _ x) by done. cbn [result log]; by rewrite ?try_Run_Raise.
  - rewrite (bind_external_Ok _ _ reply) by done.
    rewrite (bind_lift_Raise _ x) by done. cbn [result log]; by rewrite ?try_Run_Raise.
  - rewrite (bind_external_Raise _ _ x) by done. cbn [result log]; by rewrite ?try_Run_Raise.
  - rewrite (bind_external_Ok _ _ reply) by done.
    rewrite (bind_lift_Raise _ x) by done. cbn [result log]; by rewrite ?try_Run_Raise.
Qed.

Lemma model_failure_is_500_witness :
  predict_prescription unreachable_world demo_model demo_request
  = Run (Ok {| body := error_body unreachable_world (LibraryError (lit "quota exceeded"));
               status := 500 |})
        [EvImageOpen [Byte.xff; Byte.xd8; Byte.xff; Byte.xe0]; EvExifTranspose;
         EvGenerate demo_model PRESCRIPTION_PROMPT]
  ∧ predict_box unreachable_world demo_model demo_request
    = Run (Ok {| body := error_body unreachable_world (LibraryError (lit "quota exceeded"));
                 status := 500 |})
          [EvImageOpen [Byte.xff; Byte.xd8; Byte.xff; Byte.xe0]; EvExifTranspose;
           EvGenerate demo_model BOX_PROMPT].
Proof.
  destruct (model_failure_is_500 unreachable_world demo_model demo_request
              [Byte.xff; Byte.xd8; Byte.xff; Byte.xe0]
              [Byte.xff; Byte.xd8; Byte.xff; Byte.xe0]
              [Byte.xff; Byte.xd8; Byte.xff; Byte.xe0]
              eq_refl eq_refl eq_refl) as [Hp Hb].
  split; [apply Hp|apply Hb]; left; reflexivity.
Defined.

Lemma entry_no_get data h f key x :
  get data key (VStr []) = Raise x → entry data h f key = Run (Raise x) [].
Proof. intros H. unfold entry. by rewrite (bind_lift_Raise _ x). Qed.

(** X17.  The box handler has no guard around the parser: when
    [json.loads] raises, or returns something that is not an object, the
    answer is 500 (with the text of the parse error, or of the AttributeError
    for the missing [get]) and no normaliser is called. *)
Theorem box_unparsable_is_500 (E : Env) (model : str) (req : request)
    (file : bytes) (image image' : Image E) (reply : Reply E) (text : str) (x : exn)
    (Hfile : first_of (lit "image") (files req) = Some file)
    (Hopen : Image_open E file = Ok image)
    (Hexif : exif_transpose E image = Ok image')
    (Hreply : generate_content E model BOX_PROMPT image' = Ok reply)
    (Htext : reply_text E reply = Ok text)
    (Hparse : json_loads E (strip_fences text) = Raise x
              ∨ ∃ data, json_loads E (strip_fences text) = Ok data
                        ∧ get data (lit "medicineName") (VStr []) = Raise x) :
  predict_box E model req
  = Run (Ok {| body := error_body E x; status := 500 |})
        [EvImageOpen file; EvExifTranspose; EvGenerate model BOX_PROMPT;
         EvJsonLoads (strip_fences text)].
Proof.
  with_image Hfile.
  rewrite (bind_external_Ok _ _ image) by done.
  rewrite (bind_external_Ok _ _ image') by done.
  rewrite (bind_external_Ok _ _ reply) by done.
  rewrite (bind_lift_Ok _ text) by done.
  destruct Hparse as [Hparse|(data & Hparse & Hget)].
  - rewrite (bind_external_Raise _ _ x) by done. cbn [result log]; by rewrite ?try_Run_Raise.
  - rewrite (bind_external_Ok _ _ data) by done.
    rewrite (entry_no_get data Clean_text_value clean_text_value (lit "medicineName") x Hget). cbn [result log]; by rewrite ?try_Run_Raise.
Qed.

Lemma box_unparsable_is_500_witness :
  predict_box array_world demo_model demo_request
  = Run (Ok {| body := error_body array_world
                         (AttributeError (VList [VInt 1; VInt 2]) (lit "get"));
               status := 500 |})
        [EvImageOpen [Byte.xff; Byte.xd8; Byte.xff; Byte.xe0]; EvExifTranspose;
         EvGenerate demo_model BOX_PROMPT; EvJsonLoads (lit "[1, 2]")].
Proof.
  apply (box_unparsable_is_500 array_world demo_model demo_request
           [Byte.xff; Byte.xd8; Byte.xff; Byte.xe0]
           [Byte.xff; Byte.xd8; Byte.xff; Byte.xe0]
           [Byte.xff; Byte.xd8; Byte.xff; Byte.xe0]
           (lit "[1, 2]") (lit "[1, 2]")); try reflexivity.
  right. exists (VList [VInt 1; VInt 2]). split; reflexivity.
Defined.

(** X18.  Once the model has answered, the prescription handler cannot fail
    any more: it answers 200 with the value under "medicines" when the answer
    parses to an object that has this key, and with an empty list when the
    key is missing, when the answer parses to something else, and when it
    does not parse. *)
Theorem prescription_after_reply (E : Env) (model : str) (req : request)
    (file : bytes) (image image' : Image E) (reply : Reply E) (text : str)
    (Hfile : first_of (lit "image") (files req) = Some file)
    (Hopen : Image_open E file = Ok image)
    (Hexif : exif_transpose E image = Ok image')
    (Hreply : generate_content E model PRESCRIPTION_PROMPT image' = Ok reply)
    (Htext : reply_text E reply = Ok text) :
  predict_prescription E model req
  = Run (Ok {| body := jsonify [(lit "status", VStr (lit "success"));
                                (lit "medicines", medicines_of E text)];
               status := 200 |})
        [EvImageOpen file; EvExifTranspose; EvGenerate model PRESCRIPTION_PROMPT;
         EvJsonLoads (strip_fences text)]
  ∧ medicines_of E text
    = match json_loads E (strip_fences text) with
      | Ok (VDict d) => match d !! lit "medicines" with
                        | Some medicines => medicines
                        | None => VList []
                        end
      | _ => VList []
      end.
Proof.
  split.
  - with_image Hfile.
    rewrite (bind_external_Ok _ _ image) by done.
    rewrite (bind_external_Ok _ _ image') by done.
    rewrite (bind_external_Ok _ _ reply) by done.
    rewrite (bind_lift_Ok _ text) by done.
    unfold medicines_of.
    destruct (json_loads E (strip_fences text)) as [data|x] eqn:Hparse.
    + rewrite (bind_external_Ok _ _ data) by done.
      cbn [mbind outcome_bind]. by destruct (get data _ _).
    + by rewrite (bind_external_Raise _ _ x).
  - unfold medicines_of.
    destruct (json_loads E (strip_fences text)) as [[]|]; done.
Qed.

Lemma prescription_after_reply_witness :
  predict_prescription array_world demo_model demo_request
  = Run (Ok {| body := jsonify [(lit "status", VStr (lit "success"));
                                (lit "medicines", medicines_of array_world (lit "[1, 2]"))];
               status := 200 |})
        [EvImageOpen [Byte.xff; Byte.xd8; Byte.xff; Byte.xe0]; EvExifTranspose;
         EvGenerate demo_model PRESCRIPTION_PROMPT;
         EvJsonLoads (strip_fences (lit "[1, 2]"))]
  ∧ medicines_of array_world (lit "[1, 2]") = VList [].
Proof.
  apply (prescription_after_reply array_world demo_model demo_request
           [Byte.xff; Byte.xd8; Byte.xff; Byte.xe0]
           [Byte.xff; Byte.xd8; Byte.xff; Byte.xe0]
           [Byte.xff; Byte.xd8; Byte.xff; Byte.xe0]
           (lit "[1, 2]") (lit "[1, 2]")); reflexivity.
Defined.

(** *** Counting the calls of the model *)

Lemma model_calls_bind {A B} (m : M A) (f : A → M B) a b :
  model_calls m ≤ a → (∀ x, model_calls (f x) ≤ b) → model_calls (m ≫= f) ≤ a + b.
Proof.
  unfold model_calls, mbind, M_bind. intros Hm Hf. destruct (result m); cbn [log].
  - rewrite filter_app, length_app. specialize (Hf a0). lia.
  - lia.
Qed.

Lemma model_calls_try {A} (m : M A) handler a b :
  model_calls m ≤ a → (∀ x, model_calls (handler x) ≤ b) →
  model_calls (try_except m handler) ≤ a + b.
Proof.
  unfold model_calls, try_except. intros Hm Hh. destruct (result m); cbn [log].
  - lia.
  - rewrite filter_app, length_app. specialize (Hh e). lia.
Qed.

Lemma model_calls_if {A} (c : bool) (m1 m2 : M A) a b :
  model_calls m1 ≤ a → model_calls m2 ≤ b →
  model_calls (if c then m1 else m2) ≤ a + b.
Proof. destruct c; lia. Qed.

Lemma model_calls_ret {A} (a : A) : model_calls (mret a) ≤ 0.
Proof. done. Qed.

Lemma model_calls_lift {A} (o : outcome A) : model_calls (lift o) ≤ 0.
Proof. done. Qed.

Lemma model_calls_external {A} e (o : outcome A) : model_calls (external e o) ≤ 1.
Proof.
  unfold model_calls. cbn [external emit lift mbind M_bind result log app].
  destruct (is_model_call e) eqn:He.
  - by rewrite filter_cons_True.
  - rewrite filter_cons_False by congruence. cbn. lia.
Qed.

Lemma model_calls_other {A} e (o : outcome A) :
  is_model_call e = false → model_calls (external e o) ≤ 0.
Proof.
  intros He. unfold model_calls. cbn [external emit lift mbind M_bind result log app].
  by rewrite filter_cons_False by congruence.
Qed.

Lemma model_calls_entry data h f key : model_calls (entry data h f key) ≤ 0.
Proof.
  unfold entry. change 0 with (0 + (0 + 0)).
  apply model_calls_bind; [apply model_calls_lift|intros raw].
  apply model_calls_bind; [done|intros v; apply model_calls_ret].
Qed.

Ltac count_steps :=
  repeat first
    [ apply model_calls_entry
    | apply model_calls_other; reflexivity
    | apply model_calls_external
    | apply model_calls_ret
    | apply model_calls_lift
    | eapply model_calls_try; [|intros ?]
    | eapply model_calls_if
    | eapply model_calls_bind; [|intros ?] ].

Lemma only_own_prompt {A} (m : M A) (model prompt : str) :
  Forall (λ e, ∀ m' p', e = EvGenerate m' p' → m' = model ∧ p' = prompt) (log m) →
  ∀ m' p', EvGenerate m' p' ∈ log m → m' = model ∧ p' = prompt.
Proof. rewrite Forall_forall. intros H m' p' Hin. by apply (H _ Hin). Qed.

(** X19.  A request calls the generative model at most once (there is no
    retry), and only with the configured model and the handler's own
    prompt. *)
Theorem model_called_at_most_once (E : Env) (model : str) (req : request) :
  model_calls (predict_prescription E model req) ≤ 1
  ∧ model_calls (predict_box E model req) ≤ 1
  ∧ (∀ m p, EvGenerate m p ∈ log (predict_prescription E model req) →
            m = model ∧ p = PRESCRIPTION_PROMPT)
  ∧ (∀ m p, EvGenerate m p ∈ log (predict_box E model req) →
            m = model ∧ p = BOX_PROMPT).
Proof.
  split_and!.
  - eapply Nat.le_trans.
    + unfold predict_prescription, error_response. count_steps.
    + cbn. lia.
  - eapply Nat.le_trans.
    + unfold predict_box, error_response. count_steps.
    + cbn. lia.
  - apply only_own_prompt. unfold predict_prescription, error_response.
    log_steps; by intros ?? [=].
  - apply only_own_prompt. unfold predict_box, error_response.
    log_steps; by intros ?? [=].
Qed.

(** X20.  In a successful box response the keys are among the eight known
    ones, and the two spellings of a field always go together: both present
    with the same value, or both absent. *)
Theorem box_keys_paired (E : Env) (model : str) (req : request) (r : http_response)
    (Hr : result (predict_box E model req) = Ok r) (H200 : status r = 200%Z) :
  ∃ fields : gmap str value,
    body r = jsonify [(lit "status", VStr (lit "success"));
                      (lit "fields", VDict fields);
                      (lit "detections", VDict fields)]
    ∧ (∀ k, is_Some (fields !! k) →
            k ∈ [lit "medicineName"; lit "strength"; lit "expiryDate";
                 lit "manufacturingDate"; lit "Medicine_Name"; lit "Strength";
                 lit "EXP_Date"; lit "MFG_Date"])
    ∧ fields !! lit "medicineName" = fields !! lit "Medicine_Name"
    ∧ fields !! lit "strength" = fields !! lit "Strength"
    ∧ fields !! lit "expiryDate" = fields !! lit "EXP_Date"
    ∧ fields !! lit "manufacturingDate" = fields !! lit "MFG_Date".
Proof.
  destruct (box_200 E model req r Hr H200)
    as (file & image & image' & reply & text & data & n & s & x & m
        & _ & _ & _ & _ & _ & _ & _ & _ & _ & _ & ->).
  exists (box_fields n s x m). split_and!.
  - reflexivity.
  - apply box_fields_dom.
  - rewrite (box_fields_key n s x m (lit "medicineName") n) by pick_entry.
    rewrite (box_fields_key n s x m (lit "Medicine_Name") n) by pick_entry.
    reflexivity.
  - rewrite (box_fields_key n s x m (lit "strength") s) by pick_entry.
    rewrite (box_fields_key n s x m (lit "Strength") s) by pick_entry.
    reflexivity.
  - rewrite (box_fields_key n s x m (lit "expiryDate") x) by pick_entry.
    rewrite (box_fields_key n s x m (lit "EXP_Date") x) by pick_entry.
    reflexivity.
  - rewrite (box_fields_key n s x m (lit "manufacturingDate") m) by pick_entry.
    rewrite (box_fields_key n s x m (lit "MFG_Date") m) by pick_entry.
    reflexivity.
Qed.

Lemma box_keys_paired_witness :
  ∃ fields : gmap str value,
    body demo_box_response = jsonify [(lit "status", VStr (lit "success"));
                                      (lit "fields", VDict fields);
                                      (lit "detections", VDict fields)]
    ∧ (∀ k, is_Some (fields !! k) →
            k ∈ [lit "medicineName"; lit "strength"; lit "expiryDate";
                 lit "manufacturingDate"; lit "Medicine_Name"; lit "Strength";
                 lit "EXP_Date"; lit "MFG_Date"])
    ∧ fields !! lit "medicineName" = fields !! lit "Medicine_Name"
    ∧ fields !! lit "strength" = fields !! lit "Strength"
    ∧ fields !! lit "expiryDate" = fields !! lit "EXP_Date"
    ∧ fields !! lit "manufacturingDate" = fields !! lit "MFG_Date".
Proof.
  apply (box_keys_paired demo_world demo_model demo_request).
  - by rewrite demo_box_run.
  - reflexivity.
Defined.

Lemma normalised_date_chars data key x :
  normalised clean_date data key = Ok x → Forall (λ c, is_date_char c = true) x.
Proof.
  unfold normalised. intros (raw & _ & Hx)%outcome_bind_Ok.
  apply clean_date_Ok in Hx as [->|(s & -> & ->)]; [constructor|apply filter_Forall].
Qed.

Lemma normalised_text_shape data key t :
  normalised clean_text_value data key = Ok t →
  Forall (λ c, is_symbol c = false) t ∧ trimmed t.
Proof.
  unfold normalised. intros (raw & _ & Ht)%outcome_bind_Ok.
  apply clean_text_value_Ok in Ht as [->|(s & -> & ->)].
  - split; [constructor|by intros c [|]].
  - split; [|apply strip_trimmed].
    eapply Forall_sublist; [apply filter_Forall|apply strip_sublist].
Qed.

Lemma box_fields_value n s x m k t v :
  (k, t) ∈ box_entries n s x m → box_fields n s x m !! k = Some v → v = VStr t.
Proof.
  intros Hin. rewrite (box_fields_key n s x m k t Hin).
  case_bool_decide; [done|]. by intros [= <-].
Qed.

(** X21.  In a successful box response every value is a non-empty string in
    normal form: a date holds only digits and the separators / . -, and a
    name or strength holds none of the five marks and has no white space at
    its ends. *)
Theorem box_values_normalised (E : Env) (model : str) (req : request)
    (r : http_response)
    (Hr : result (predict_box E model req) = Ok r) (H200 : status r = 200%Z) :
  ∃ fields : gmap str value,
    body r = jsonify [(lit "status", VStr (lit "success"));
                      (lit "fields", VDict fields);
                      (lit "detections", VDict fields)]
    ∧ (∀ k v, k ∈ [lit "expiryDate"; lit "EXP_Date";
                   lit "manufacturingDate"; lit "MFG_Date"] →
              fields !! k = Some v →
              ∃ t, v = VStr t ∧ t ≠ [] ∧ Forall (λ c, is_date_char c = true) t)
    ∧ (∀ k v, k ∈ [lit "medicineName"; lit "Medicine_Name";
                   lit "strength"; lit "Strength"] →
              fields !! k = Some v →
              ∃ t, v = VStr t ∧ t ≠ [] ∧ Forall (λ c, is_symbol c = false) t
                   ∧ trimmed t).
Proof.
  destruct (box_200 E model req r Hr H200)
    as (file & image & image' & reply & text & data & n & s & x & m
        & _ & _ & _ & _ & _ & _ & Hn & Hs & Hx & Hm & ->).
  apply normalised_text_shape in Hn as [Hn1 Hn2], Hs as [Hs1 Hs2].
  apply normalised_date_chars in Hx, Hm.
  exists (box_fields n s x m). split_and!; [reflexivity|..].
  - intros k v Hk Hv. rewrite !elem_of_cons, elem_of_nil in Hk.
    assert (∃ t, (k, t) ∈ box_entries n s x m
                 ∧ Forall (λ c, is_date_char c = true) t) as (t & Hin & Ht).
    { destruct Hk as [->|[->|[->|[->|[]]]]];
        [exists x|exists x|exists m|exists m]; (split; [pick_entry|assumption]). }
    exists t. pose proof (box_fields_value _ _ _ _ _ _ _ Hin Hv) as ->.
    split_and!; [reflexivity| |exact Ht].
    by apply box_fields_lookup in Hv as (? & [= <-] & ? & _).
  - intros k v Hk Hv. rewrite !elem_of_cons, elem_of_nil in Hk.
    assert (∃ t, (k, t) ∈ box_entries n s x m
                 ∧ Forall (λ c, is_symbol c = false) t ∧ trimmed t)
      as (t & Hin & Ht1 & Ht2).
    { destruct Hk as [->|[->|[->|[->|[]]]]];
        [exists n|exists n|exists s|exists s]; (split; [pick_entry|by split]). }
    exists t. pose proof (box_fields_value _ _ _ _ _ _ _ Hin Hv) as ->.
    split_and!; [reflexivity| |exact Ht1|exact Ht2].
    by apply box_fields_lookup in Hv as (? & [= <-] & ? & _).
Qed.

Lemma box_values_normalised_witness :
  ∃ fields : gmap str value,
    body demo_box_response = jsonify [(lit "status", VStr (lit "success"));
                                      (lit "fields", VDict fields);
                                      (lit "detections", VDict fields)]
    ∧ (∀ k v, k ∈ [lit "expiryDate"; lit "EXP_Date";
                   lit "manufacturingDate"; lit "MFG_Date"] →
              fields !! k = Some v →
              ∃ t, v = VStr t ∧ t ≠ [] ∧ Forall (λ c, is_date_char c = true) t)
    ∧ (∀ k v, k ∈ [lit "medicineName"; lit "Medicine_Name";
                   lit "strength"; lit "Strength"] →
              fields !! k = Some v →
              ∃ t, v = VStr t ∧ t ≠ [] ∧ Forall (λ c, is_symbol c = false) t
                   ∧ trimmed t).
Proof.
  apply (box_values_normalised demo_world demo_model demo_request).
  - by rewrite demo_box_run.
  - reflexivity.
Defined.

(** X22.  In a successful box response both maps are empty exactly when
    the four values normalised from the object the model's answer parsed to
    are all empty (every field missing, null, empty or "Not Detected"). *)
Theorem box_nothing_detected (E : Env) (model : str) (req : request)
    (r : http_response)
    (Hr : result (predict_box E model req) = Ok r) (H200 : status r = 200%Z) :
  ∃ (file : bytes) (image image' : Image E) (reply : Reply E) (text : str)
    (data : value) (n s x m : str) (fields : gmap str value),
    first_of (lit "image") (files req) = Some file
    ∧ Image_open E file = Ok image
    ∧ exif_transpose E image = Ok image'
    ∧ generate_content E model BOX_PROMPT image' = Ok reply
    ∧ reply_text E reply = Ok text
    ∧ json_loads E (strip_fences text) = Ok data
    ∧ normalised clean_text_value data (lit "medicineName") = Ok n
    ∧ normalised clean_text_value data (lit "strength") = Ok s
    ∧ normalised clean_date data (lit "expiryDate") = Ok x
    ∧ normalised clean_date data (lit "manufacturingDate") = Ok m
    ∧ body r = jsonify [(lit "status", VStr (lit "success"));
                        (lit "fields", VDict fields);
                        (lit "detections", VDict fields)]
    ∧ (fields = ∅ ↔ n = [] ∧ s = [] ∧ x = [] ∧ m = []).
Proof.
  destruct (box_200 E model req r Hr H200)
    as (file & image & image' & reply & text & data & n & s & x & m
        & Hfile & Hopen & Hexif & Hreply & Htext & Hdata & Hn & Hs & Hx & Hm & ->).
  exists file, image, image', reply, text, data, n, s, x, m, (box_fields n s x m).
  split_and!; [assumption..|reflexivity|]. split.
  - intros Hempty.
    assert (∀ k t, (k, t) ∈ box_entries n s x m → t = []) as Hall.
    { intros k t Hin. pose proof (box_fields_key n s x m k t Hin) as Hk.
      rewrite Hempty, lookup_empty in Hk. by case_bool_decide. }
    split_and!; eapply Hall; pick_entry.
  - intros (-> & -> & -> & ->). apply map_empty. intros k.
    apply eq_None_not_Some. intros [v (t & _ & Hne & Hk)%box_fields_lookup].
    destruct Hk as [[_ Ht]|[[_ Ht]|[[_ Ht]|[_ Ht]]]]; congruence.
Qed.

Lemma box_nothing_detected_witness :
  ∃ (file : bytes) (image image' : Image demo_world) (reply : Reply demo_world) (text : str)
    (data : value) (n s x m : str) (fields : gmap str value),
    first_of (lit "image") (files demo_request) = Some file
    ∧ Image_open demo_world file = Ok image
    ∧ exif_transpose demo_world image = Ok image'
    ∧ generate_content demo_world demo_model BOX_PROMPT image' = Ok reply
    ∧ reply_text demo_world reply = Ok text
    ∧ json_loads demo_world (strip_fences text) = Ok data
    ∧ normalised clean_text_value data (lit "medicineName") = Ok n
    ∧ normalised clean_text_value data (lit "strength") = Ok s
    ∧ normalised clean_date data (lit "expiryDate") = Ok x
    ∧ normalised clean_date data (lit "manufacturingDate") = Ok m
    ∧ body demo_box_response = jsonify [(lit "status", VStr (lit "success"));
                        (lit "fields", VDict fields);
                        (lit "detections", VDict fields)]
    ∧ (fields = ∅ ↔ n = [] ∧ s = [] ∧ x = [] ∧ m = []).
Proof.
  apply (box_nothing_detected demo_world demo_model demo_request).
  - by rewrite demo_box_run.
  - reflexivity.
Defined.

Lemma normalisers_reject v :
  truthy v = true → is_str v = false →
  clean_text_value v = Raise (TypeError v) ∧ clean_date v = Raise (TypeError v).
Proof.
  intros Ht Hs. unfold clean_text_value, clean_date. rewrite Ht.
  by destruct v.
Qed.

(** X23.  A field that the model gives as something other than a string and
    that is not falsy (a number such as 500, [true], a non-empty array or
    object) makes the whole box request fail with status 500. *)
Theorem box_non_string_field_is_500 (E : Env) (model : str) (req : request)
    (file : bytes) (image image' : Image E) (reply : Reply E) (text : str)
    (d : gmap str value) (key : str) (v : value)
    (Hfile : first_of (lit "image") (files req) = Some file)
    (Hopen : Image_open E file = Ok image)
    (Hexif : exif_transpose E image = Ok image')
    (Hreply : generate_content E model BOX_PROMPT image' = Ok reply)
    (Htext : reply_text E reply = Ok text)
    (Hparse : json_loads E (strip_fences text) = Ok (VDict d))
    (Hkey : key ∈ [lit "medicineName"; lit "strength"; lit "expiryDate";
                   lit "manufacturingDate"])
    (Hv : d !! key = Some v) (Htruthy : truthy v = true) (Hstr : is_str v = false) :
  ∃ r, result (predict_box E model req) = Ok r ∧ status r = 500%Z.
Proof.
  destruct (box_status E model req) as (r & Hr & Hst). exists r. split; [done|].
  unfold has_field in Hst. rewrite Hfile, bool_decide_eq_true_2 in Hst by eauto.
  destruct Hst as [H200|H500]; [exfalso|done].
  destruct (box_200 E model req r Hr H200)
    as (file0 & image0 & image0' & reply0 & text0 & data & n & s & x & m
        & Hfile0 & Hopen0 & Hexif0 & Hreply0 & Htext0 & Hparse0
        & Hn & Hs & Hx & Hm & _).
  rewrite Hfile in Hfile0. injection Hfile0 as <-.
  rewrite Hopen in Hopen0. injection Hopen0 as <-.
  rewrite Hexif in Hexif0. injection Hexif0 as <-.
  rewrite Hreply in Hreply0. injection Hreply0 as <-.
  rewrite Htext in Htext0. injection Htext0 as <-.
  rewrite Hparse in Hparse0. injection Hparse0 as <-.
  destruct (normalisers_reject v Htruthy Hstr) as [Htxt Hdate].
  unfold normalised, get in Hn, Hs, Hx, Hm.
  rewrite !elem_of_cons, elem_of_nil in Hkey.
  destruct Hkey as [->|[->|[->|[->|[]]]]].
  - rewrite Hv in Hn. cbn in Hn. congruence.
  - rewrite Hv in Hs. cbn in Hs. congruence.
  - rewrite Hv in Hx. cbn in Hx. congruence.
  - rewrite Hv in Hm. cbn in Hm. congruence.
Qed.

Lemma box_non_string_field_is_500_witness :
  ∃ r, result (predict_box numeric_world demo_model demo_request) = Ok r
       ∧ status r = 500%Z.
Proof.
  apply (box_non_string_field_is_500 numeric_world demo_model demo_request
           [Byte.xff; Byte.xd8; Byte.xff; Byte.xe0]
           [Byte.xff; Byte.xd8; Byte.xff; Byte.xe0]
           [Byte.xff; Byte.xd8; Byte.xff; Byte.xe0]
           numeric_document numeric_document
           (dict [(lit "strength", VInt 500)]) (lit "strength") (VInt 500));
    try reflexivity.
  rewrite !elem_of_cons. auto.
Defined.
